(** * CDP MCP server v7: the tool functions of [CDP_MCP_v7.py] and their contracts

    The server is boundary glue around an external tool suite: every tool
    function asks the file system a few questions, possibly spawns one
    process, and assembles a dictionary.  The functions are embedded here as
    programs of a small state-and-exception monad over an explicit model of
    the host (file system, process table and the server's own stderr), so
    that [try]/[except], early returns and Python's short-circuit evaluation
    keep the shape they have in the source.  What the library calls do when
    the operating system refuses them is left to the host: a probe outside
    any [try] that raises makes the tool raise. *)

From Stdlib Require Import ZArith String Ascii List Bool Lia.
From Stdlib Require Import Strings.Byte DecimalString.
From stdpp Require Import base option list gmap strings sorting fin_maps.

Local Open Scope Z_scope.
Local Open Scope string_scope.

(** ** Python [str] operations used by the server

    A Python [str] is modelled as a Rocq [string] whose characters are the
    code points U+0000..U+00FF; [String.length] is then Python's [len]. *)
Module PyStr.

(** [bool(s)]: a string is truthy when it is not empty. *)
Definition truthy (s : string) : bool :=
  match s with EmptyString => false | String _ _ => true end.

(** [s.startswith(p)]. *)
Definition startswith (s p : string) : bool := String.prefix p s.

(** [sub in s]. *)
Fixpoint contains (sub s : string) : bool :=
  String.prefix sub s ||
  match s with
  | EmptyString => false
  | String _ s' => contains sub s'
  end.

(** [s.endswith(p)]. *)
Definition endswith (s p : string) : bool :=
  String.prefix (String.rev p) (String.rev s).

(** [sep.join(l)]. *)
Definition join (sep : string) (l : list string) : string :=
  String.concat sep l.

(** [s[:n]]. *)
Fixpoint take (n : nat) (s : string) : string :=
  match n, s with
  | S n', String c s' => String c (take n' s')
  | _, _ => EmptyString
  end.

(** [c.isspace()] on U+0000..U+00FF: TAB, LF, VT, FF, CR, FS, GS, RS, US,
    SPACE, NEL (U+0085) and NBSP (U+00A0). *)
Definition isspace (c : ascii) : bool :=
  let n := N_of_ascii c in
  ((9 <=? n) && (n <=? 13) || (28 <=? n) && (n <=? 32)
   || (n =? 133) || (n =? 160))%N.

Fixpoint lstrip (s : string) : string :=
  match s with
  | String c s' => if isspace c then lstrip s' else s
  | EmptyString => EmptyString
  end.

(** [s.strip()]. *)
Definition strip (s : string) : string :=
  String.rev (lstrip (String.rev (lstrip s))).

(** [s.split(sep)] for a one-character separator: the current field is
    accumulated in reverse in [cur]; the result is never empty. *)
Fixpoint split_go (sep : ascii) (cur : string) (s : string) : list string :=
  match s with
  | EmptyString => [String.rev cur]
  | String c s' =>
      if Ascii.eqb c sep then String.rev cur :: split_go sep EmptyString s'
      else split_go sep (String c cur) s'
  end.
Definition split (sep : ascii) (s : string) : list string :=
  split_go sep EmptyString s.

(** [c.lower()] on U+0000..U+00FF: A-Z and the Latin-1 capitals
    U+00C0..U+00DE (without the multiplication sign U+00D7) move up by 32. *)
Definition lower_char (c : ascii) : ascii :=
  let n := N_of_ascii c in
  if ((65 <=? n) && (n <=? 90)
      || (192 <=? n) && (n <=? 222) && negb (n =? 215))%N
  then ascii_of_N (n + 32) else c.

(** [s.lower()]. *)
Fixpoint lower (s : string) : string :=
  match s with
  | EmptyString => EmptyString
  | String c s' => String (lower_char c) (lower s')
  end.

(** What reading in text mode makes of line ends: CR LF and a lone CR both
    become LF. *)
Fixpoint universal_newlines (s : string) : string :=
  match s with
  | EmptyString => EmptyString
  | String c s' =>
      if Ascii.eqb c "013" then
        match s' with
        | String "010" s'' => String "010" (universal_newlines s'')
        | _ => String "010" (universal_newlines s')
        end
      else String c (universal_newlines s')
  end.

(** The mathematical notion [contains] decides. *)
Definition substring_of (sub s : string) : Prop :=
  exists pre post : string, s = pre ++ sub ++ post.

End PyStr.

(** ** UTF-8, the encoding [Path.write_text] uses for the file's bytes *)
Module Utf8.

(** One code point below U+0100: one byte below U+0080, otherwise the two
    bytes [110000xx 10xxxxxx]. *)
Definition encode_char (c : ascii) : list byte :=
  match c with
  | Ascii b0 b1 b2 b3 b4 b5 b6 false =>
      [byte_of_ascii (Ascii b0 b1 b2 b3 b4 b5 b6 false)]
  | Ascii b0 b1 b2 b3 b4 b5 b6 true =>
      [byte_of_ascii (Ascii b6 true false false false false true true);
       byte_of_ascii (Ascii b0 b1 b2 b3 b4 b5 false true)]
  end.

Fixpoint encode (s : string) : list byte :=
  match s with
  | EmptyString => []
  | String c s' => encode_char c ++ encode s'
  end.

(** Decoding of what [encode] produces; [None] on any other byte
    sequence. *)
Fixpoint decode_go (fuel : nat) (bs : list byte) : option string :=
  match fuel with
  | O => match bs with [] => Some EmptyString | _ => None end
  | S fuel' =>
      match bs with
      | [] => Some EmptyString
      | b :: rest =>
          match ascii_of_byte b with
          | Ascii b0 b1 b2 b3 b4 b5 b6 false =>
              String (Ascii b0 b1 b2 b3 b4 b5 b6 false) <$> decode_go fuel' rest
          | Ascii b6 true false false false false true true =>
              match rest with
              | b' :: rest' =>
                  match ascii_of_byte b' with
                  | Ascii b0 b1 b2 b3 b4 b5 false true =>
                      String (Ascii b0 b1 b2 b3 b4 b5 b6 true)
                        <$> decode_go fuel' rest'
                  | _ => None
                  end
              | [] => None
              end
          | _ => None
          end
      end
  end.
Definition decode (bs : list byte) : option string :=
  decode_go (List.length bs) bs.

End Utf8.


(** ** Values, exceptions and the host *)

(** The values the tools put in their result dictionaries. *)
Inductive pyval :=
| VStr (s : string)
| VInt (z : Z)
| VBool (b : bool).

(** What a Python call can raise: the server tells
    [subprocess.TimeoutExpired] from every other [Exception], of which it
    only ever uses [str(e)]. *)
Inductive pyexn :=
| TimeoutExpired (str_e : string)
| OtherException (str_e : string).

(** A [pathlib] path on POSIX: its root ([""], ["/"] or ["//"]) and its
    components. *)
Definition path : Type := string * list string.

(** A node of the file system: a regular file with its execute permission
    and bytes, or a directory. *)
Inductive inode :=
| RegularFile (executable : bool) (data : list byte)
| Directory.

(** One [subprocess.run] call: the argument vector, [cwd=] and
    [timeout=]. *)
Record spawn_call := {
  argv : list string;
  cwd : option string;
  timeout : option Z
}.

(** [subprocess.CompletedProcess] with [capture_output=True, text=True]. *)
Record CompletedProcess := {
  returncode : Z;
  stdout : string;
  stderr : string
}.

(** The mutable part of the host: the file system, keyed by path (a
    relative path is one below the server's working directory); the
    processes spawned so far; and the lines the server printed on its own
    stderr. *)
Record world := {
  fs : gmap path inode;
  spawned : list spawn_call;
  console : list string
}.

(** The fixed part: the module-level configuration ([CDP_PATH], a string,
    [TEMP_DIR], a path, and [IS_APPLE_SILICON]) and the behaviour of what
    lies outside the server.
    - [subprocess_run] is what a spawned program does: it either completes
      or makes [subprocess.run] raise, and leaves a file system behind.
    - [stat_error] is the error, if any, that [os.stat] of a path meets and
      that [pathlib] does not take for "no such file" (a name too long, a
      directory that may not be searched): [exists] and [is_file] raise it.
    - [listdir_error] is the error with which listing a directory fails.
    - [open_w_error] is the error with which opening a path for writing
      fails; the file is then untouched.
    - [write_error] is the error that hits a write after the file was
      opened and truncated, with the bytes that reached the file.
    - [print_error] is the error with which a line cannot be printed on
      the server's stderr. *)
Record host := {
  CDP_PATH : string;
  TEMP_DIR : path;
  IS_APPLE_SILICON : bool;
  subprocess_run :
    spawn_call -> gmap path inode -> (pyexn + CompletedProcess) * gmap path inode;
  stat_error : path -> gmap path inode -> option string;
  listdir_error : path -> gmap path inode -> option string;
  open_w_error : path -> gmap path inode -> option string;
  write_error : path -> string -> gmap path inode -> option (string * list byte);
  print_error : string -> option string
}.

(** ** The monad of tool code: state plus exceptions *)
Module Py.

Definition M (A : Type) : Type := world -> (pyexn + A) * world.

Definition ret {A} (a : A) : M A := fun w => (inr a, w).

Definition raise {A} (e : pyexn) : M A := fun w => (inl e, w).

Definition bind {A B} (m : M A) (k : A -> M B) : M B :=
  fun w =>
    match m w with
    | (inr a, w') => k a w'
    | (inl e, w') => (inl e, w')
    end.

(** [try: body / except subprocess.TimeoutExpired: on_timeout /
    except Exception as e: on_other(str(e))]. *)
Definition try_except {A} (body : M A)
    (on_timeout : M A) (on_other : string -> M A) : M A :=
  fun w =>
    match body w with
    | (inr a, w') => (inr a, w')
    | (inl (TimeoutExpired _), w') => on_timeout w'
    | (inl (OtherException msg), w') => on_other msg w'
    end.

(** [try: body / except Exception as e: handler(str(e))]. *)
Definition try_except_all {A} (body : M A) (handler : string -> M A) : M A :=
  fun w =>
    match body w with
    | (inr a, w') => (inr a, w')
    | (inl (TimeoutExpired msg), w') => handler msg w'
    | (inl (OtherException msg), w') => handler msg w'
    end.

End Py.

Notation "x <~ m ;; k" := (Py.bind m (fun x => k))
  (at level 100, m at next level, right associativity).
Notation "m ;;; k" := (Py.bind m (fun _ => k))
  (at level 100, right associativity).

(** ** The library calls the server makes *)
Module Path.

(** [os.path.isabs(s)]. *)
Definition isabs (s : string) : bool := PyStr.startswith s "/".

(** The root of a path string: exactly two leading slashes are kept, one
    or more than two make the root ["/"]. *)
Definition root_of (s : string) : string :=
  if PyStr.startswith s "//" && negb (PyStr.startswith s "///") then "//"
  else if PyStr.startswith s "/" then "/"
  else "".

(** A component that [pathlib] keeps: not empty and not a single dot. *)
Definition is_part (x : string) : bool :=
  PyStr.truthy x && negb (String.eqb x ".").

(** The components of a path string. *)
Definition parts_of (s : string) : list string :=
  List.filter is_part (PyStr.split "/" s).

(** [Path(s)]. *)
Definition parse (s : string) : path := (root_of s, parts_of s).

(** [str(p)]. *)
Definition str (p : path) : string :=
  match snd p with
  | [] => if PyStr.truthy (fst p) then fst p else "."
  | _ :: _ => fst p ++ PyStr.join "/" (snd p)
  end.

(** [p / seg]: an absolute segment replaces the path, any other one adds
    its components. *)
Definition div (p : path) (seg : string) : path :=
  if isabs seg then parse seg else (fst p, (snd p ++ parts_of seg)%list).

(** [p.name], the final component. *)
Definition name (p : path) : string := List.last (snd p) "".

(** [p.parent]. *)
Definition parent (p : path) : path := (fst p, List.removelast (snd p)).

(** A name a directory can hold. *)
Definition entry_name (n : string) : bool :=
  PyStr.truthy n && negb (String.eqb n ".") && negb (String.eqb n "..")
  && negb (PyStr.contains "/" n).

(** [child dir p]: [p] lies directly inside [dir]. *)
Definition child (dir p : path) : bool :=
  bool_decide (parent p = dir)
  && match snd p with [] => false | _ :: _ => true end
  && entry_name (name p).

(** The paths directly inside [dir], in the order of the directory
    table. *)
Definition children (files : gmap path inode) (dir : path) : list path :=
  omap (fun kv => if child dir (fst kv) then Some (fst kv) else None)
    (map_to_list files).

(** [p.exists()]: raises what [os.stat] meets, unless that is "no such
    file". *)
Definition exists_ (h : host) (p : path) : Py.M bool :=
  fun w =>
    match stat_error h p (fs w) with
    | Some msg => Py.raise (OtherException msg) w
    | None => Py.ret (bool_decide (is_Some (fs w !! p))) w
    end.

(** [p.is_file()], with the same errors. *)
Definition is_file (h : host) (p : path) : Py.M bool :=
  fun w =>
    match stat_error h p (fs w) with
    | Some msg => Py.raise (OtherException msg) w
    | None =>
        Py.ret match fs w !! p with Some (RegularFile _ _) => true | _ => false end w
    end.

(** [os.access(p, os.X_OK)], which answers [False] on any error; a
    directory counts as searchable. *)
Definition access_X_OK (p : path) : Py.M bool :=
  fun w =>
    (inr match fs w !! p with
         | Some (RegularFile x _) => x
         | Some Directory => true
         | None => false
         end,
     w).

(** [dir.iterdir()]: raises on anything that is not a directory and on a
    directory that may not be listed. *)
Definition iterdir (h : host) (dir : path) : Py.M (list path) :=
  fun w =>
    match fs w !! dir with
    | Some Directory =>
        match listdir_error h dir (fs w) with
        | Some msg => Py.raise (OtherException msg) w
        | None => Py.ret (children (fs w) dir) w
        end
    | Some (RegularFile _ _) =>
        Py.raise (OtherException ("[Errno 20] Not a directory: '" ++ str dir ++ "'")) w
    | None =>
        Py.raise
          (OtherException ("[Errno 2] No such file or directory: '" ++ str dir ++ "'")) w
    end.

(** The execute permission of the regular file at [p], if there is one. *)
Definition mode_at (files : gmap path inode) (p : path) : bool :=
  match files !! p with
  | Some (RegularFile x _) => x
  | _ => false
  end.

(** [p.write_text(content)].  Opening for writing fails, and leaves the
    file system as it is, when the host says so, when [p] is a directory and
    when the parent of [p] is not a directory.  Otherwise the file is
    truncated or created; the write then either fails, leaving the bytes
    that reached the file, or stores the encoded content.  An existing file
    keeps its mode. *)
Definition write_text (h : host) (p : path) (content : string) : Py.M unit :=
  fun w =>
    match open_w_error h p (fs w) with
    | Some msg => Py.raise (OtherException msg) w
    | None =>
        match fs w !! p, fs w !! parent p with
        | Some Directory, _ =>
            Py.raise (OtherException ("[Errno 21] Is a directory: '" ++ str p ++ "'")) w
        | _, Some Directory =>
            match write_error h p content (fs w) with
            | Some (msg, reached) =>
                (inl (OtherException msg),
                 {| fs := <[p := RegularFile (mode_at (fs w) p) reached]> (fs w);
                    spawned := spawned w;
                    console := console w |})
            | None =>
                (inr tt,
                 {| fs := <[p := RegularFile (mode_at (fs w) p)
                                 (Utf8.encode content)]> (fs w);
                    spawned := spawned w;
                    console := console w |})
            end
        | _, Some (RegularFile _ _) =>
            Py.raise (OtherException ("[Errno 20] Not a directory: '" ++ str p ++ "'")) w
        | _, None =>
            Py.raise
              (OtherException ("[Errno 2] No such file or directory: '" ++ str p ++ "'")) w
        end
    end.

(** [p.read_text()] where it succeeds: the bytes are decoded and the line
    ends translated. *)
Definition read_text (files : gmap path inode) (p : path) : option string :=
  match files !! p with
  | Some (RegularFile _ data) => PyStr.universal_newlines <$> Utf8.decode data
  | _ => None
  end.

End Path.

Module Subprocess.

(** [subprocess.run(cmd, capture_output=True, text=True, cwd=, timeout=)]:
    the call is recorded, the program does what the host says. *)
Definition run (h : host) (cmd : list string) (dir : option string)
    (limit : option Z) : Py.M CompletedProcess :=
  fun w =>
    let call := {| argv := cmd; cwd := dir; timeout := limit |} in
    let '(r, files) := subprocess_run h call (fs w) in
    (r, {| fs := files;
           spawned := spawned w ++ [call];
           console := console w |}).

End Subprocess.

(** [print(line, file=sys.stderr)]. *)
Definition print_stderr (h : host) (line : string) : Py.M unit :=
  fun w =>
    match print_error h line with
    | Some msg => Py.raise (OtherException msg) w
    | None =>
        (inr tt,
         {| fs := fs w; spawned := spawned w; console := console w ++ [line] |})
    end.

(** ** The server *)

(** [CDP_CATEGORIES]; a Python dict iterates in insertion order. *)
Definition CDP_CATEGORIES : list (string * list string) :=
  [ ("Spectral Processing",
     ["blur"; "clean"; "combine"; "cross"; "focus"; "formants";
      "gate"; "get"; "hilite"; "morph"; "pitch"; "spec"; "strange"; "stretch"]);
    ("Time Domain",
     ["modify"; "distort"; "envel"; "extend"; "filter"; "grain";
      "sfedit"; "zigzag"]);
    ("Synthesis", ["synth"; "texture"; "fracture"]);
    ("Analysis and Utility",
     ["pvoc"; "sndinfo"; "housekeep"; "submix"; "mchshred"]);
    ("Other", []) ].

Section Server.

Variable h : host.

(** *** [scan_cdp_programs] *)

(** The body of [for file in cdp_dir.iterdir()]. *)
Fixpoint scan_loop (files : list path) (programs : list string)
    : Py.M (list string) :=
  match files with
  | [] => Py.ret programs
  | file :: rest =>
      is_f <~ Path.is_file h file ;;
      ok <~ (if is_f : bool then Path.access_X_OK file else Py.ret false) ;;
      if ok : bool then
        let name := Path.name file in
        if negb (PyStr.startswith name ".") && negb (PyStr.endswith name ".txt")
        then scan_loop rest (programs ++ [name])%list
        else scan_loop rest programs
      else scan_loop rest programs
  end.

(** The category of a program: the first entry of [CDP_CATEGORIES] that
    lists it (the inner [for ... break]). *)
Definition find_category (prog : string) : option string :=
  fst <$> List.find (fun entry => bool_decide (prog ∈ snd entry)) CDP_CATEGORIES.

(** One round of [for prog in sorted(programs)], on the pair
    [(categorized, uncategorized)]. *)
Definition categorize_step
    (st : gmap string (list string) * list string) (prog : string)
    : gmap string (list string) * list string :=
  match find_category prog with
  | Some category => (alter (fun l => (l ++ [prog])%list) category (fst st), snd st)
  | None => (fst st, (snd st ++ [prog])%list)
  end.

Definition scan_cdp_programs : Py.M (gmap string (list string)) :=
  let cdp_dir := Path.parse (CDP_PATH h) in
  there <~ Path.exists_ h cdp_dir ;;
  if negb there then
    Py.ret {[ "error" := ["CDP directory not found: " ++ CDP_PATH h] ]}
  else
    scanned <~ Py.try_except_all
      (files <~ Path.iterdir h cdp_dir ;;
       programs <~ scan_loop files [] ;;
       Py.ret (inr programs))
      (fun str_e =>
         Py.ret (inl {[ "error" := ["Failed to scan CDP directory: " ++ str_e] ]})) ;;
    match scanned with
    | inl early => Py.ret early
    | inr programs =>
        let categorized0 : gmap string (list string) :=
          list_to_map (List.map (fun entry => (fst entry, [])) CDP_CATEGORIES) in
        let '(categorized, uncategorized) :=
          List.fold_left categorize_step (merge_sort String.le programs)
            (categorized0, []) in
        let categorized :=
          match uncategorized with
          | [] => categorized
          | _ :: _ => <["Other" := uncategorized]> categorized
          end in
        Py.ret (filter (fun kv => snd kv <> []) categorized)
    end.

Definition list_cdp_programs : Py.M (gmap string (list string)) :=
  scan_cdp_programs.

(** *** [run_cdp_for_usage] *)

Definition not_found_message (program cmd_path : string) : string :=
  "Program '" ++ program ++ "' not found at " ++ cmd_path.

Definition timeout_message : string :=
  "Command timed out - program may be waiting for input".

(** The argument vector, with the architecture prefix where needed. *)
Definition arch_prefix (cmd_path : string) (args : list string) : list string :=
  if IS_APPLE_SILICON h then (["arch"; "-x86_64"; cmd_path] ++ args)%list
  else ([cmd_path] ++ args)%list.

Definition usage_args (subprogram : option string) : list string :=
  match subprogram with
  | Some sub => if PyStr.truthy sub then [sub] else []
  | None => []
  end.

Definition run_cdp_for_usage (program : string) (subprogram : option string)
    : Py.M (Z * string * string) :=
  let cmd_path := Path.div (Path.parse (CDP_PATH h)) program in
  there <~ Path.exists_ h cmd_path ;;
  if negb there
  then Py.ret (-1, "", not_found_message program (Path.str cmd_path))
  else
    let args := usage_args subprogram in
    let cmd := arch_prefix (Path.str cmd_path) args in
    Py.try_except
      (result <~ Subprocess.run h cmd None (Some 5) ;;
       let output :=
         if PyStr.truthy (stdout result) then stdout result else stderr result in
       Py.ret (returncode result, output, stderr result))
      (Py.ret (-1, "", timeout_message))
      (fun str_e => Py.ret (-1, "", "Failed to execute: " ++ str_e)).

(** *** [run_cdp_command] *)

Definition run_cdp_command (command : list string) : Py.M (Z * string * string) :=
  match command with
  | [] => Py.ret (-1, "", "Empty command array")
  | program :: rest =>
      let cmd_path := Path.div (Path.parse (CDP_PATH h)) program in
      there <~ Path.exists_ h cmd_path ;;
      if negb there
      then Py.ret (-1, "", not_found_message program (Path.str cmd_path))
      else
        let full_cmd := arch_prefix (Path.str cmd_path) rest in
        print_stderr h ("Executing: " ++ PyStr.join " " full_cmd) ;;;
        Py.try_except_all
          (result <~ Subprocess.run h full_cmd (Some (Path.str (TEMP_DIR h))) None ;;
           Py.ret (returncode result, stdout result, stderr result))
          (fun str_e => Py.ret (-1, "", "Execution failed: " ++ str_e))
  end.

(** *** [get_cdp_usage] *)

(** [subprogram or "none"]. *)
Definition or_none (subprogram : option string) : string :=
  match subprogram with
  | Some sub => if PyStr.truthy sub then sub else "none"
  | None => "none"
  end.

Definition get_cdp_usage (program : string) (subprogram : option string)
    : Py.M (gmap string pyval) :=
  Py.bind (run_cdp_for_usage program subprogram) (fun '(exit_code, output, stderr) =>
  let response : gmap string pyval :=
    {[ "program" := VStr program;
       "subprogram" := VStr (or_none subprogram);
       "usage_text" := VStr (if PyStr.truthy output then output else stderr);
       "exit_code" := VInt exit_code ]} in
  if PyStr.truthy output || PyStr.truthy stderr then
    let text := if PyStr.truthy output then output else stderr in
    let response :=
      if PyStr.contains "USAGE:" text || PyStr.contains "Usage:" text
      then <["has_usage" := VBool true]> response else response in
    let response :=
      if PyStr.contains "MODES:" text || PyStr.contains "Modes:" text
      then <["has_modes" := VBool true]> response else response in
    let response :=
      if existsb (fun flag => PyStr.contains flag text) ["-"; "FLAGS:"; "Options:"]
      then <["has_flags" := VBool true]> response else response in
    let response :=
      if PyStr.contains (program ++ " " ++ program) (PyStr.lower text)
      then <["note" :=
               VStr ("This program uses double syntax: " ++ program ++ " " ++ program)]>
             response
      else response in
    Py.ret response
  else Py.ret response).

(** *** [execute_cdp] *)

(** [command[-1]] of a non-empty list. *)
Definition last_arg (command : list string) : string := List.last command "".

Definition execute_cdp (command : list string) : Py.M (gmap string pyval) :=
  match command with
  | [] =>
      Py.ret {[ "status" := VStr "failed";
                "error" := VStr "Empty command array provided" ]}
  | _ :: _ =>
      Py.bind (run_cdp_command command) (fun '(exit_code, stdout, stderr) =>
      success <~
        (if (exit_code =? 0)%Z then Py.ret true
         else if (exit_code =? 1)%Z && PyStr.truthy stdout && negb (PyStr.truthy stderr)
         then Py.ret true
         else if (2 <? List.length command)%nat
         then Path.exists_ h (Path.parse (last_arg command))
         else Py.ret false) ;;
      let result : gmap string pyval :=
        {[ "status" := VStr (if success : bool then "success" else "failed");
           "exit_code" := VInt exit_code;
           "command" := VStr (PyStr.join " " command);
           "stdout" := VStr (if PyStr.truthy stdout then stdout else "");
           "stderr" := VStr (if PyStr.truthy stderr then stderr else "") ]} in
      if (2 <? List.length command)%nat then
        let possible_output := last_arg command in
        if negb (PyStr.startswith possible_output "-")
           && PyStr.contains "." possible_output
        then
          let result := <["output_file" := VStr possible_output]> result in
          there <~ Path.exists_ h (Path.parse possible_output) ;;
          if there : bool then Py.ret (<["output_exists" := VBool true]> result)
          else Py.ret result
        else Py.ret result
      else Py.ret result)
  end.

(** *** [create_data_file] *)

(** [filepath] after the first statement of the [try]: kept when absolute,
    and [str(TEMP_DIR / filepath)] otherwise. *)
Definition data_file_name (filepath : string) : string :=
  if negb (Path.isabs filepath) then Path.str (Path.div (TEMP_DIR h) filepath)
  else filepath.

Definition create_data_file (filepath content : string)
    : Py.M (gmap string pyval) :=
  Py.try_except_all
    (let filepath := data_file_name filepath in
     Path.write_text h (Path.parse filepath) content ;;;
     there <~ Path.exists_ h (Path.parse filepath) ;;
     if there : bool then
       let lines := PyStr.split "010" (PyStr.strip content) in
       Py.ret {[ "status" := VStr "success";
                 "filepath" := VStr filepath;
                 "lines" := VInt (Z.of_nat (List.length lines));
                 "size" := VInt (Z.of_nat (String.length content));
                 "preview" :=
                   VStr (if (200 <? String.length content)%nat
                         then PyStr.take 200 content ++ "..."
                         else content) ]}
     else
       Py.ret {[ "status" := VStr "failed";
                 "error" := VStr "File was not created" ]})
    (fun str_e =>
       Py.ret {[ "status" := VStr "failed";
                 "error" := VStr ("Failed to create data file: " ++ str_e) ]}).

(** *** [prepare_spectral] *)

(** [str(n)] of an [int], as an f-string prints it. *)
Definition str_of_int (n : Z) : string := NilZero.string_of_int (Z.to_int n).

(** [result["status"] == "success"]; a missing key raises [KeyError]. *)
Definition status_is_success (result : gmap string pyval) : Py.M bool :=
  match result !! "status" with
  | Some (VStr s) => Py.ret (String.eqb s "success")
  | Some _ => Py.ret false
  | None => Py.raise (OtherException "'status'")
  end.

(** The PVOC command line [prepare_spectral] builds. *)
Definition pvoc_command (input_file output_file : string) (window_size : Z)
    : list string :=
  ["pvoc"; "anal"; "1"; input_file; output_file; "-c" ++ str_of_int window_size].

Definition prepare_spectral (input_file output_file : string)
    (window_size : Z) : Py.M (gmap string pyval) :=
  if PyStr.endswith input_file ".ana" then
    Py.ret {[ "status" := VStr "info";
              "message" := VStr "Input is already a spectral file";
              "ana_file" := VStr input_file ]}
  else
    there <~ Path.exists_ h (Path.parse input_file) ;;
    if negb there then
      Py.ret {[ "status" := VStr "failed";
                "error" := VStr ("Input file not found: " ++ input_file) ]}
    else
      let command := pvoc_command input_file output_file window_size in
      result <~ execute_cdp command ;;
      ok <~ status_is_success result ;;
      if ok : bool then Py.ret (<["ana_file" := VStr output_file]> result)
      else Py.ret result.

End Server.

(** ** The guards of [execute_cdp] as functions of what it observes *)

(** The success expression of [execute_cdp], on the values it is computed
    from: the triple of [run_cdp_command] and the file system after the
    run. *)
Definition inferred_success (command : list string)
    (exit_code : Z) (out err : string) (files : gmap path inode) : bool :=
  (exit_code =? 0)%Z
  || ((exit_code =? 1)%Z && PyStr.truthy out && negb (PyStr.truthy err))
  || ((2 <? List.length command)%nat
      && bool_decide (is_Some (files !! Path.parse (last_arg command)))).

(** The guard of the output-file report of [execute_cdp]. *)
Definition reports_output_file (command : list string) : bool :=
  (2 <? List.length command)%nat
  && negb (PyStr.startswith (last_arg command) "-")
  && PyStr.contains "." (last_arg command).

(** [execute_cdp] asks whether its last argument exists: for the success
    expression when the exit code did not decide, and for the output-file
    report. *)
Definition probes_last_arg (command : list string)
    (exit_code : Z) (out err : string) : bool :=
  (negb (exit_code =? 0)%Z
   && negb ((exit_code =? 1)%Z && PyStr.truthy out && negb (PyStr.truthy err))
   && (2 <? List.length command)%nat)
  || reports_output_file command.

(** What [run_cdp_command] makes of the way the process ended. *)
Definition triple_of (outcome : pyexn + CompletedProcess) : Z * string * string :=
  match outcome with
  | inr done_ => (returncode done_, stdout done_, stderr done_)
  | inl (TimeoutExpired str_e) => (-1, "", "Execution failed: " ++ str_e)
  | inl (OtherException str_e) => (-1, "", "Execution failed: " ++ str_e)
  end.

(** ** What the server asks of the host for a program *)

(** [Path(CDP_PATH) / program], the path both runners probe. *)
Definition program_path (h : host) (program : string) : path :=
  Path.div (Path.parse (CDP_PATH h)) program.

(** The [subprocess.run] call of [run_cdp_command]. *)
Definition command_call (h : host) (program : string) (rest : list string)
    : spawn_call :=
  {| argv := arch_prefix h (Path.str (program_path h program)) rest;
     cwd := Some (Path.str (TEMP_DIR h));
     timeout := None |}.

(** The line [run_cdp_command] prints before it spawns. *)
Definition executing_line (h : host) (program : string) (rest : list string)
    : string :=
  "Executing: "
  ++ PyStr.join " " (arch_prefix h (Path.str (program_path h program)) rest).

(** The host after [run_cdp_command] has printed its line and spawned. *)
Definition after_command (h : host) (program : string) (rest : list string)
    (w : world) : world :=
  {| fs := snd (subprocess_run h (command_call h program rest) (fs w));
     spawned := spawned w ++ [command_call h program rest];
     console := console w ++ [executing_line h program rest] |}.

(** The [subprocess.run] call of [run_cdp_for_usage]. *)
Definition usage_call (h : host) (program : string) (subprogram : option string)
    : spawn_call :=
  {| argv := arch_prefix h (Path.str (program_path h program)) (usage_args subprogram);
     cwd := None;
     timeout := Some 5 |}.

(** What [run_cdp_for_usage] makes of the way the process ended. *)
Definition usage_triple_of (outcome : pyexn + CompletedProcess) : Z * string * string :=
  match outcome with
  | inr done_ =>
      (returncode done_,
       (if PyStr.truthy (stdout done_) then stdout done_ else stderr done_),
       stderr done_)
  | inl (TimeoutExpired _) => (-1, "", timeout_message)
  | inl (OtherException str_e) => (-1, "", "Failed to execute: " ++ str_e)
  end.

(** The host after [run_cdp_for_usage] has spawned. *)
Definition after_usage (h : host) (program : string) (subprogram : option string)
    (w : world) : world :=
  {| fs := snd (subprocess_run h (usage_call h program subprogram) (fs w));
     spawned := spawned w ++ [usage_call h program subprogram];
     console := console w |}.

(** ** Sample hosts *)

(** A host on which every spawned program ends the way [outcome] says and
    touches no file, and on which no library call is refused. *)
Definition scripted_host (outcome : pyexn + CompletedProcess) : host :=
  {| CDP_PATH := "/opt/cdp";
     TEMP_DIR := Path.parse "/tmp/cdp_mcp";
     IS_APPLE_SILICON := false;
     subprocess_run := fun _ files => (outcome, files);
     stat_error := fun _ _ => None;
     listdir_error := fun _ _ => None;
     open_w_error := fun _ _ => None;
     write_error := fun _ _ _ => None;
     print_error := fun _ => None |}.

(** A host on which every spawned program completes with this exit code
    and these two streams. *)
Definition completes (code : Z) (out err : string) : host :=
  scripted_host (inr {| returncode := code; stdout := out; stderr := err |}).

(** A host for calls that spawn nothing. *)
Definition idle_host : host := scripted_host (inl (OtherException "unused")).

(** The same host on a system where a component of more than 255 characters
    cannot be examined. *)
Definition strict_host (outcome : pyexn + CompletedProcess) : host :=
  {| CDP_PATH := "/opt/cdp";
     TEMP_DIR := Path.parse "/tmp/cdp_mcp";
     IS_APPLE_SILICON := false;
     subprocess_run := fun _ files => (outcome, files);
     stat_error := fun p _ =>
       if existsb (fun part => (255 <? String.length part)%nat) (snd p)
       then Some ("[Errno 36] File name too long: '" ++ Path.str p ++ "'")
       else None;
     listdir_error := fun _ _ => None;
     open_w_error := fun _ _ => None;
     write_error := fun _ _ _ => None;
     print_error := fun _ => None |}.

(** A host that refuses to open any file for writing. *)
Definition read_only_host : host :=
  {| CDP_PATH := "/opt/cdp";
     TEMP_DIR := Path.parse "/tmp/cdp_mcp";
     IS_APPLE_SILICON := false;
     subprocess_run := fun _ files => (inl (OtherException "unused"), files);
     stat_error := fun _ _ => None;
     listdir_error := fun _ _ => None;
     open_w_error := fun p _ =>
       Some ("[Errno 30] Read-only file system: '" ++ Path.str p ++ "'");
     write_error := fun _ _ _ => None;
     print_error := fun _ => None |}.

(** A host on which the installation directory may not be listed. *)
Definition locked_host : host :=
  {| CDP_PATH := "/opt/cdp";
     TEMP_DIR := Path.parse "/tmp/cdp_mcp";
     IS_APPLE_SILICON := false;
     subprocess_run := fun _ files => (inl (OtherException "unused"), files);
     stat_error := fun _ _ => None;
     listdir_error := fun p _ =>
       Some ("[Errno 13] Permission denied: '" ++ Path.str p ++ "'");
     open_w_error := fun _ _ => None;
     write_error := fun _ _ _ => None;
     print_error := fun _ => None |}.

(** A host whose disk is full: a file can be opened and truncated, and no
    byte of the content reaches it. *)
Definition full_disk_host : host :=
  {| CDP_PATH := "/opt/cdp";
     TEMP_DIR := Path.parse "/tmp/cdp_mcp";
     IS_APPLE_SILICON := false;
     subprocess_run := fun _ files => (inl (OtherException "unused"), files);
     stat_error := fun _ _ => None;
     listdir_error := fun _ _ => None;
     open_w_error := fun _ _ => None;
     write_error := fun _ _ _ => Some ("[Errno 28] No space left on device", []);
     print_error := fun _ => None |}.

(** [n] times the letter a. *)
Fixpoint letters (n : nat) : string :=
  match n with
  | O => EmptyString
  | S n' => String "a" (letters n')
  end.

(** An installation with three programs, the scratch directory, and a few
    files in the server's working directory. *)
Definition studio_fs : gmap path inode :=
  list_to_map
    [ (Path.parse "/", Directory);
      (Path.parse "/opt", Directory);
      (Path.parse "/opt/cdp", Directory);
      (Path.parse "/opt/cdp/blur", RegularFile true []);
      (Path.parse "/opt/cdp/sndinfo", RegularFile true []);
      (Path.parse "/opt/cdp/pvoc", RegularFile true []);
      (Path.parse "/tmp", Directory);
      (Path.parse "/tmp/cdp_mcp", Directory);
      (Path.parse ".", Directory);
      (Path.parse "in.wav", RegularFile false []);
      (Path.parse "out.ana", RegularFile false []);
      (Path.parse "-out", RegularFile false []) ].

Definition studio : world :=
  {| fs := studio_fs; spawned := []; console := [] |}.

(** The same installation with a program whose name is capitalised. *)
Definition workshop : world :=
  {| fs := <[Path.parse "/opt/cdp/Blur" := RegularFile true []]> studio_fs;
     spawned := [];
     console := [] |}.

(** The [status] entry of what a tool returned. *)
Definition status_of (res : (pyexn + gmap string pyval) * world) : option pyval :=
  match fst res with
  | inr r => r !! "status"
  | inl _ => None
  end.

(** The success rule in the words of the specification: the file-existence
    disjunct counts only for three or more elements and a last argument that
    does not start with a dash. *)
Definition success_as_specified (command : list string) (exit_code : Z)
    (out err : string) (files : gmap path inode) : Prop :=
  exit_code = 0
  \/ (exit_code = 1 /\ out <> "" /\ err = "")
  \/ ((3 <= List.length command)%nat
      /\ PyStr.startswith (last_arg command) "-" = false
      /\ is_Some (files !! Path.parse (last_arg command))).

(** The content of the [texture] example of [create_data_file]: two note
    lines separated by one line feed. *)
Definition texture_notes : string :=
  "0.0 60 0.5 100
0.5 64 0.5 100".

(** ** Notions used to describe the program listing *)

(** The keys of [CDP_CATEGORIES]. *)
Definition category_names : list string := List.map fst CDP_CATEGORIES.

(** Where [scan_cdp_programs] files a program: under the first category
    that lists it, and under ["Other"] when none does. *)
Definition category_of (prog : string) : string :=
  default "Other" (find_category prog).

(** What one round of [scan_loop] appends for the path [file]. *)
Definition accepted (files : gmap path inode) (file : path) : option string :=
  match files !! file with
  | Some (RegularFile true _) =>
      let name := Path.name file in
      if negb (PyStr.startswith name ".") && negb (PyStr.endswith name ".txt")
      then Some name else None
  | _ => None
  end.

(** The names [scan_cdp_programs] collects from the directory, in the
    order of the directory table. *)
Definition scanned_programs (h : host) (files : gmap path inode) : list string :=
  omap (accepted files) (Path.children files (Path.parse (CDP_PATH h))).

(** The scan of the installation directory goes through: [CDP_PATH] is a
    directory that can be listed, and every path in it can be examined. *)
Definition scan_completes (h : host) (files : gmap path inode) : Prop :=
  files !! Path.parse (CDP_PATH h) = Some Directory
  /\ listdir_error h (Path.parse (CDP_PATH h)) files = None
  /\ Forall (fun file => stat_error h file files = None)
       (Path.children files (Path.parse (CDP_PATH h))).

(** [name] is an installed program: an executable regular file directly
    inside [CDP_PATH] whose name neither starts with a dot nor ends in
    [.txt]. *)
Definition is_program (h : host) (files : gmap path inode) (name : string) : Prop :=
  (exists data,
     files !! Path.div (Path.parse (CDP_PATH h)) name = Some (RegularFile true data))
  /\ name <> ""
  /\ PyStr.contains "/" name = false
  /\ PyStr.startswith name "." = false
  /\ PyStr.endswith name ".txt" = false.

(** ** Notions used to describe [create_data_file] *)

(** The path [create_data_file] writes to. *)
Definition data_file_path (h : host) (filepath : string) : path :=
  Path.parse (data_file_name h filepath).

(** The host lets [create_data_file] write [content] to [p] and look at
    the file afterwards: opening is not refused, [p] is not a directory but
    its parent is, the write goes through, and the file can then be
    examined. *)
Definition writable (h : host) (files : gmap path inode) (p : path)
    (content : string) : Prop :=
  open_w_error h p files = None
  /\ files !! p <> Some Directory
  /\ files !! Path.parent p = Some Directory
  /\ write_error h p content files = None
  /\ stat_error h p
       (<[p := RegularFile (Path.mode_at files p) (Utf8.encode content)]> files)
     = None.

(** A string of code points below U+0080. *)
Definition is_ascii (s : string) : Prop :=
  Forall (fun c => (N_of_ascii c < 128)%N) (list_ascii_of_string s).

(** ** The embedding at work *)

Example strip_split_texture_notes :
  PyStr.split "010" (PyStr.strip texture_notes)
  = ["0.0 60 0.5 100"; "0.5 64 0.5 100"].
Proof. reflexivity. Qed.

Example strip_drops_outer_blank_lines :
  PyStr.split "010" (PyStr.strip " 5 5
0.0 0.1
") = ["5 5"; "0.0 0.1"].
Proof. reflexivity. Qed.

Example endswith_txt :
  PyStr.endswith "readme.txt" ".txt" = true /\ PyStr.endswith "txt" ".txt" = false.
Proof. split; reflexivity. Qed.

Example lower_ascii : PyStr.lower "Blur BLUR infile" = "blur blur infile".
Proof. reflexivity. Qed.

Example universal_newlines_mixed :
  PyStr.universal_newlines (String "a" (String "013" (String "010"
                              (String "b" (String "013" (String "c" EmptyString))))))
  = String "a" (String "010" (String "b" (String "010" (String "c" EmptyString)))).
Proof. reflexivity. Qed.

(** [pathlib] drops empty components, single dots and a trailing slash,
    keeps double dots, and keeps exactly two leading slashes. *)
Example str_of_parse :
  Path.str (Path.parse "/opt/cdp/./blur") = "/opt/cdp/blur"
  /\ Path.str (Path.parse "a//b/") = "a/b"
  /\ Path.str (Path.parse "") = "."
  /\ Path.str (Path.parse "./") = "."
  /\ Path.str (Path.parse "/") = "/"
  /\ Path.str (Path.parse "a/../b") = "a/../b"
  /\ Path.str (Path.parse "//a") = "//a"
  /\ Path.str (Path.parse "///a") = "/a".
Proof. repeat split; reflexivity. Qed.

Example div_relative_absolute :
  Path.str (Path.div (Path.parse "/opt/cdp") "blur") = "/opt/cdp/blur"
  /\ Path.str (Path.div (Path.parse "/opt/cdp/") "./nope") = "/opt/cdp/nope"
  /\ Path.str (Path.div (Path.parse "/opt/cdp") "/bin/ls") = "/bin/ls"
  /\ Path.str (Path.div (Path.parse "/opt/cdp") "") = "/opt/cdp"
  /\ Path.str (Path.div (Path.parse "") "x") = "x"
  /\ Path.name (Path.parse "/opt/cdp/blur") = "blur"
  /\ Path.str (Path.parent (Path.parse "/opt/cdp/blur")) = "/opt/cdp"
  /\ Path.str (Path.parent (Path.parse "notes.txt")) = ".".
Proof. repeat split; reflexivity. Qed.

Example utf8_two_bytes_above_127 :
  List.length (Utf8.encode (String (ascii_of_N 233) EmptyString)) = 2%nat.
Proof. reflexivity. Qed.

(** The installation of [studio] lists its three programs under their
    categories, sorted, and leaves the other categories out. *)
Example list_cdp_programs_studio :
  exists m : gmap string (list string),
    fst (list_cdp_programs idle_host studio)
    = inr m
    /\ m !! "Spectral Processing" = Some ["blur"]
    /\ m !! "Analysis and Utility" = Some ["pvoc"; "sndinfo"]
    /\ m !! "Time Domain" = None
    /\ m !! "Other" = None.
Proof. eexists. split; [reflexivity|]. repeat split; vm_compute; reflexivity. Qed.

(** A probe of a program that waits for input. *)
Example run_cdp_for_usage_hangs :
  fst (run_cdp_for_usage
         (scripted_host (inl (TimeoutExpired "timed out after 5 seconds")))
         "blur" None studio)
  = inr (-1, "", "Command timed out - program may be waiting for input").
Proof. vm_compute. reflexivity. Qed.

(** Where a name of 300 characters cannot be examined, the probes that
    stand outside any [try] let the error escape: from [run_cdp_command] for
    the program, from [execute_cdp] for the last argument, even after the
    program has run and returned exit code 0. *)
Example execute_cdp_long_name_escapes :
  execute_cdp (strict_host (inr {| returncode := 0; stdout := ""; stderr := "" |}))
    [letters 300] studio
  = (inl (OtherException
            ("[Errno 36] File name too long: '/opt/cdp/" ++ letters 300 ++ "'")),
     studio)
  /\ fst (execute_cdp (strict_host (inr {| returncode := 0; stdout := ""; stderr := "" |}))
            ["blur"; "in.ana"; letters 300 ++ ".wav"] studio)
     = inl (OtherException
              ("[Errno 36] File name too long: '" ++ letters 300 ++ ".wav'"))
  /\ fst (get_cdp_usage (strict_host (inl (TimeoutExpired "unused")))
            (letters 300) None studio)
     = inl (OtherException
              ("[Errno 36] File name too long: '/opt/cdp/" ++ letters 300 ++ "'")).
Proof. repeat split; vm_compute; reflexivity. Qed.

(** ** Facts about the string operations *)

Lemma prefix_app (p s : string) :
  String.prefix p s = true <-> exists post, s = p ++ post.
Proof.
  revert s. induction p as [|a p IH]; intros s.
  - split; [intros _; by exists s | by destruct s].
  - destruct s as [|b s]; simpl.
    + split; [done | intros [post Hpost]; discriminate].
    + destruct (ascii_dec a b) as [->|Hne].
      * rewrite IH. split; intros [post Hpost]; exists post.
        -- by rewrite Hpost.
        -- by injection Hpost.
      * split; [done | intros [post Hpost]; injection Hpost; congruence].
Qed.

Lemma contains_substring_of (sub s : string) :
  PyStr.contains sub s = true <-> PyStr.substring_of sub s.
Proof.
  unfold PyStr.substring_of. induction s as [|c s IH]; cbn [PyStr.contains].
  - rewrite orb_false_r, prefix_app. split.
    + intros [post Hpost]. by exists "", post.
    + intros [pre [post Hs]]. destruct pre; [by exists post | discriminate].
  - rewrite orb_true_iff, prefix_app, IH. split.
    + intros [[post Hpost] | [pre [post Hs]]].
      * by exists "", post.
      * exists (String c pre), post. simpl. by rewrite Hs.
    + intros [pre [post Hs]]. destruct pre as [|c' pre]; simpl in Hs.
      * left. by exists post.
      * right. exists pre, post. by injection Hs.
Qed.

Lemma truthy_nonempty (s : string) : PyStr.truthy s = true <-> s <> "".
Proof. destruct s; simpl; split; congruence. Qed.

Lemma truthy_empty (s : string) : PyStr.truthy s = false <-> s = "".
Proof. destruct s; simpl; split; congruence. Qed.

Lemma keep_if_truthy (s : string) : (if PyStr.truthy s then s else "") = s.
Proof. by destruct s. Qed.

(** ** UTF-8 round trip *)

Lemma utf8_decode_go_encode (s : string) (fuel : nat) :
  (List.length (Utf8.encode s) <= fuel)%nat ->
  Utf8.decode_go fuel (Utf8.encode s) = Some s.
Proof.
  revert fuel. induction s as [|c s IH]; intros fuel Hfuel.
  - by destruct fuel.
  - destruct c as [b0 b1 b2 b3 b4 b5 b6 b7]; destruct b7;
      cbn [Utf8.encode Utf8.encode_char List.app List.length] in *;
      (destruct fuel as [|fuel]; [lia|]); cbn [Utf8.decode_go];
      rewrite !ascii_of_byte_of_ascii.
    + destruct b6; cbn iota; by rewrite IH by lia.
    + destruct b1, b2, b3, b4, b5, b6; cbn iota; by rewrite IH by lia.
Qed.

Lemma utf8_round_trip (s : string) : Utf8.decode (Utf8.encode s) = Some s.
Proof. by apply utf8_decode_go_encode. Qed.

Lemma utf8_ascii_length (s : string) :
  Forall (fun c => (N_of_ascii c < 128)%N) (list_ascii_of_string s) ->
  List.length (Utf8.encode s) = String.length s.
Proof.
  induction s as [|c s IH]; intros Hs; [done|].
  inversion Hs as [|? ? Hc Hrest]; subst.
  destruct c as [b0 b1 b2 b3 b4 b5 b6 [|]].
  - exfalso. revert Hc. clear.
    destruct b0, b1, b2, b3, b4, b5, b6; vm_compute; discriminate.
  - simpl. f_equal. by apply IH.
Qed.

(** ** What [run_cdp_command] and [execute_cdp] return *)

Section ExecuteFacts.

Variable h : host.

(** The probe of the program path answers that nothing is there. *)
Lemma run_cdp_command_absent (program : string) (rest : list string) (w : world) :
  stat_error h (program_path h program) (fs w) = None ->
  fs w !! program_path h program = None ->
  run_cdp_command h (program :: rest) w
  = (inr (-1, "", not_found_message program (Path.str (program_path h program))), w).
Proof.
  intros Hstat Hnone.
  unfold run_cdp_command, Py.bind, Path.exists_. cbv beta zeta.
  fold (program_path h program).
  rewrite Hstat, Hnone, bool_decide_eq_false_2; [done|]. by intros [? ?].
Qed.

(** The probe answers that the path is there, and the line is printed. *)
Lemma run_cdp_command_present (program : string) (rest : list string) (w : world) :
  stat_error h (program_path h program) (fs w) = None ->
  is_Some (fs w !! program_path h program) ->
  print_error h (executing_line h program rest) = None ->
  run_cdp_command h (program :: rest) w
  = (inr (triple_of (fst (subprocess_run h (command_call h program rest) (fs w)))),
     after_command h program rest w).
Proof.
  intros Hstat Hsome Hprint.
  unfold run_cdp_command, Py.bind, Path.exists_, print_stderr,
    Py.try_except_all, Subprocess.run, Py.ret.
  cbv beta zeta.
  fold (program_path h program). fold (executing_line h program rest).
  rewrite Hstat, bool_decide_eq_true_2 by done. cbn [negb].
  rewrite Hprint. cbn [fs spawned console].
  unfold after_command. fold (command_call h program rest).
  by destruct (subprocess_run h _ _) as [[[msg|msg]|done_] files].
Qed.

(** Whenever [run_cdp_command] returns, it went one of these two ways. *)
Lemma run_cdp_command_inv (program : string) (rest : list string) (w w' : world)
    (t : Z * string * string) :
  run_cdp_command h (program :: rest) w = (inr t, w') ->
  stat_error h (program_path h program) (fs w) = None
  /\ ((fs w !! program_path h program = None
       /\ t = (-1, "", not_found_message program (Path.str (program_path h program)))
       /\ w' = w)
      \/ (is_Some (fs w !! program_path h program)
          /\ print_error h (executing_line h program rest) = None
          /\ t = triple_of (fst (subprocess_run h (command_call h program rest) (fs w)))
          /\ w' = after_command h program rest w)).
Proof.
  intros Hrun.
  destruct (stat_error h (program_path h program) (fs w)) as [msg|] eqn:Hstat.
  { revert Hrun. unfold run_cdp_command, Py.bind, Path.exists_. cbv beta zeta.
    fold (program_path h program). rewrite Hstat. discriminate. }
  split; [done|].
  destruct (fs w !! program_path h program) as [node|] eqn:Hlook.
  - right.
    destruct (print_error h (executing_line h program rest)) as [msg|] eqn:Hprint.
    { revert Hrun. unfold run_cdp_command, Py.bind, Path.exists_, print_stderr.
      cbv beta zeta.
      fold (program_path h program). fold (executing_line h program rest).
      rewrite Hstat, Hlook, bool_decide_eq_true_2 by done. cbn [negb].
      rewrite Hprint. discriminate. }
    rewrite run_cdp_command_present in Hrun by (by rewrite ?Hlook).
    injection Hrun as <- <-. by repeat split; [eexists|..].
  - left. rewrite run_cdp_command_absent in Hrun by done.
    by injection Hrun as <- <-.
Qed.

(** An error of the probe of the program path escapes. *)
Lemma run_cdp_command_stat_raises (program : string) (rest : list string)
    (w : world) (msg : string) :
  stat_error h (program_path h program) (fs w) = Some msg ->
  run_cdp_command h (program :: rest) w = (inl (OtherException msg), w).
Proof.
  intros Hstat. unfold run_cdp_command, Py.bind, Path.exists_. cbv beta zeta.
  fold (program_path h program). by rewrite Hstat.
Qed.

(** Every record [execute_cdp] returns, read field by field against the
    triple of the run.  The last part says that a record is only returned
    when the probe of the last argument, where one was made, was answered. *)
Lemma execute_cdp_fields (command : list string) (w w1 w' : world)
    (exit_code : Z) (out err : string) (r : gmap string pyval) :
  command <> [] ->
  run_cdp_command h command w = (inr (exit_code, out, err), w1) ->
  execute_cdp h command w = (inr r, w') ->
  w' = w1
  /\ r !! "status"
     = Some (VStr (if inferred_success command exit_code out err (fs w1)
                   then "success" else "failed"))
  /\ r !! "exit_code" = Some (VInt exit_code)
  /\ r !! "command" = Some (VStr (PyStr.join " " command))
  /\ r !! "stdout" = Some (VStr out)
  /\ r !! "stderr" = Some (VStr err)
  /\ r !! "error" = None
  /\ r !! "output_file"
     = (if reports_output_file command
        then Some (VStr (last_arg command)) else None)
  /\ r !! "output_exists"
     = (if reports_output_file command
           && bool_decide (is_Some (fs w1 !! Path.parse (last_arg command)))
        then Some (VBool true) else None)
  /\ (probes_last_arg command exit_code out err = true ->
      stat_error h (Path.parse (last_arg command)) (fs w1) = None).
Proof.
  intros Hne Hrun. destruct command as [|program rest]; [done|].
  unfold execute_cdp, Py.bind. rewrite Hrun.
  unfold probes_last_arg, inferred_success, reports_output_file,
    Path.exists_, Py.ret, Py.raise.
  rewrite !keep_if_truthy.
  destruct (exit_code =? 0)%Z;
    destruct ((exit_code =? 1)%Z && PyStr.truthy out && negb (PyStr.truthy err));
    destruct (2 <? _)%nat;
    destruct (PyStr.startswith _ _);
    destruct (PyStr.contains _ _);
    cbn [negb andb orb]; cbv beta iota;
    destruct (stat_error h _ (fs w1)) eqn:Hstat;
    repeat (cbv beta iota; rewrite ?Hstat);
    try (destruct (bool_decide _) eqn:Hthere;
         repeat (cbv beta iota; rewrite ?Hstat, ?Hthere));
    intros Hexec; try discriminate Hexec;
    injection Hexec as <- <-;
    repeat split; try reflexivity; try discriminate; done.
Qed.

(** A record is returned whenever the run returned and the probe of the
    last argument, if one is made, is answered. *)
Lemma execute_cdp_returns (command : list string) (w w1 : world)
    (exit_code : Z) (out err : string) :
  command <> [] ->
  run_cdp_command h command w = (inr (exit_code, out, err), w1) ->
  (probes_last_arg command exit_code out err = true ->
   stat_error h (Path.parse (last_arg command)) (fs w1) = None) ->
  exists r : gmap string pyval, execute_cdp h command w = (inr r, w1).
Proof.
  intros Hne Hrun. destruct command as [|program rest]; [done|].
  unfold execute_cdp, Py.bind. rewrite Hrun.
  unfold probes_last_arg, reports_output_file, Path.exists_, Py.ret, Py.raise.
  destruct (exit_code =? 0)%Z;
    destruct ((exit_code =? 1)%Z && PyStr.truthy out && negb (PyStr.truthy err));
    destruct (2 <? _)%nat;
    destruct (PyStr.startswith _ _);
    destruct (PyStr.contains _ _);
    cbn [negb andb orb]; cbv beta iota;
    intros Hstat; try specialize (Hstat eq_refl);
    repeat (cbv beta iota; rewrite ?Hstat);
    try (destruct (bool_decide _) eqn:Hthere;
         repeat (cbv beta iota; rewrite ?Hstat, ?Hthere));
    by eexists.
Qed.

(** Whenever [execute_cdp] returns for a non-empty array, the run
    returned. *)
Lemma execute_cdp_ran (command : list string) (w w' : world)
    (r : gmap string pyval) :
  command <> [] ->
  execute_cdp h command w = (inr r, w') ->
  exists exit_code out err w1,
    run_cdp_command h command w = (inr (exit_code, out, err), w1).
Proof.
  intros Hne. destruct command as [|program rest]; [done|].
  unfold execute_cdp, Py.bind.
  destruct (run_cdp_command h (program :: rest) w) as [[e|[[exit_code out] err]] w1];
    [discriminate|].
  intros _. by exists exit_code, out, err, w1.
Qed.

End ExecuteFacts.

(** The two guards, read as propositions. *)

Lemma inferred_success_true (command : list string) (exit_code : Z)
    (out err : string) (files : gmap path inode) :
  inferred_success command exit_code out err files = true
  <-> exit_code = 0
      \/ (exit_code = 1 /\ out <> "" /\ err = "")
      \/ ((2 < List.length command)%nat
          /\ is_Some (files !! Path.parse (last_arg command))).
Proof.
  unfold inferred_success.
  rewrite !orb_true_iff, !andb_true_iff, negb_true_iff, !Z.eqb_eq,
    Nat.ltb_lt, bool_decide_eq_true, truthy_nonempty, truthy_empty.
  tauto.
Qed.

Lemma reports_output_file_true (command : list string) :
  reports_output_file command = true
  <-> (2 < List.length command)%nat
      /\ ~ (exists tail, last_arg command = "-" ++ tail)
      /\ PyStr.substring_of "." (last_arg command).
Proof.
  unfold reports_output_file, PyStr.startswith.
  rewrite !andb_true_iff, negb_true_iff, Nat.ltb_lt, contains_substring_of,
    <- not_true_iff_false, prefix_app.
  tauto.
Qed.

Lemma status_success_iff (b : bool) :
  Some (VStr (if b then "success" else "failed")) = Some (VStr "success")
  <-> b = true.
Proof. destruct b; split; congruence. Qed.

(** ** [execute_cdp]: the success inference *)

(** C1, as the code has it.  Let the run of a non-empty command array
    yield an exit code, a stdout and a stderr.  Every record [execute_cdp]
    then returns has status ["success"] or ["failed"], and it is
    ["success"] exactly when the exit code is zero, or the exit code is one
    with non-empty stdout and empty stderr, or the array has more than two
    elements and its last element exists as a path after the run.  Whether
    that last element starts with a dash plays no part.  A record is
    returned whenever the probe of the last element is answered. *)
Theorem execute_cdp_success_iff (h : host) (command : list string)
    (w w1 : world) (exit_code : Z) (out err : string) :
  command <> [] ->
  run_cdp_command h command w = (inr (exit_code, out, err), w1) ->
  (stat_error h (Path.parse (last_arg command)) (fs w1) = None ->
   exists r : gmap string pyval, execute_cdp h command w = (inr r, w1))
  /\ forall (r : gmap string pyval) (w' : world),
       execute_cdp h command w = (inr r, w') ->
       w' = w1
       /\ (r !! "status" = Some (VStr "success")
           \/ r !! "status" = Some (VStr "failed"))
       /\ (r !! "status" = Some (VStr "success")
           <-> exit_code = 0
               \/ (exit_code = 1 /\ out <> "" /\ err = "")
               \/ ((2 < List.length command)%nat
                   /\ is_Some (fs w1 !! Path.parse (last_arg command)))).
Proof.
  intros Hne Hrun. split.
  - intros Hstat.
    apply (execute_cdp_returns h command w w1 exit_code out err Hne Hrun).
    by intros _.
  - intros r w' Hexec.
    destruct (execute_cdp_fields h command w w1 w' _ _ _ r Hne Hrun Hexec)
      as (-> & Hstatus & _).
    split; [done|]. rewrite Hstatus. split.
    + destruct (inferred_success _ _ _ _ _); auto.
    + rewrite status_success_iff. apply inferred_success_true.
Qed.

Lemma execute_cdp_success_iff_witness :
  (stat_error (completes 1 "ok" "")
     (Path.parse (last_arg ["blur"; "blur"; "in.ana"; "new.ana"; "50"]))
     (fs (after_command (completes 1 "ok" "") "blur"
            ["blur"; "in.ana"; "new.ana"; "50"] studio)) = None ->
   exists r : gmap string pyval,
     execute_cdp (completes 1 "ok" "") ["blur"; "blur"; "in.ana"; "new.ana"; "50"] studio
     = (inr r, after_command (completes 1 "ok" "") "blur"
                 ["blur"; "in.ana"; "new.ana"; "50"] studio))
  /\ forall (r : gmap string pyval) (w' : world),
       execute_cdp (completes 1 "ok" "") ["blur"; "blur"; "in.ana"; "new.ana"; "50"] studio
       = (inr r, w') ->
       w' = after_command (completes 1 "ok" "") "blur"
              ["blur"; "in.ana"; "new.ana"; "50"] studio
       /\ (r !! "status" = Some (VStr "success")
           \/ r !! "status" = Some (VStr "failed"))
       /\ (r !! "status" = Some (VStr "success")
           <-> 1 = 0
               \/ (1 = 1 /\ "ok" <> "" /\ "" = "")
               \/ ((2 < List.length ["blur"; "blur"; "in.ana"; "new.ana"; "50"])%nat
                   /\ is_Some
                        (fs (after_command (completes 1 "ok" "") "blur"
                               ["blur"; "in.ana"; "new.ana"; "50"] studio)
                         !! Path.parse (last_arg ["blur"; "blur"; "in.ana"; "new.ana"; "50"])))).
Proof.
  apply (execute_cdp_success_iff (completes 1 "ok" "")
           ["blur"; "blur"; "in.ana"; "new.ana"; "50"] studio
           (after_command (completes 1 "ok" "") "blur"
              ["blur"; "in.ana"; "new.ana"; "50"] studio)
           1 "ok" "").
  - discriminate.
  - reflexivity.
Defined.

(** C1, as stated, fails.  [blur] exits with code 2 and an error on stderr,
    and a file named [-out] lies in the working directory: the command
    [blur in.ana -out] is reported as a success, although its last element
    starts with a dash and so none of the three specified conditions holds. *)
Lemma execute_cdp_dash_counterexample :
  run_cdp_command (completes 2 "" "blur: bad mode") ["blur"; "in.ana"; "-out"] studio
  = (inr (2, "", "blur: bad mode"),
     {| fs := studio_fs;
        spawned := [ {| argv := ["/opt/cdp/blur"; "in.ana"; "-out"];
                        cwd := Some "/tmp/cdp_mcp";
                        timeout := None |} ];
        console := ["Executing: /opt/cdp/blur in.ana -out"] |})
  /\ status_of
       (execute_cdp (completes 2 "" "blur: bad mode") ["blur"; "in.ana"; "-out"] studio)
     = Some (VStr "success")
  /\ ~ success_as_specified ["blur"; "in.ana"; "-out"] 2 "" "blur: bad mode" studio_fs.
Proof.
  split; [reflexivity|]. split; [reflexivity|].
  intros [Hzero | [[Hone _] | (_ & Hdash & _)]]; [done | done |].
  vm_compute in Hdash. discriminate.
Qed.

(** ** [execute_cdp]: a program that is not installed *)

(** C2, where the code lets an exception through.  The probe of
    [CDP_PATH / program] stands outside the [try] of [run_cdp_command], and
    [execute_cdp] has no [try] of its own: when the host cannot examine that
    path, the error of the probe leaves [execute_cdp] as an exception, no
    record is returned, and the host is as it was. *)
Theorem execute_cdp_probe_error_escapes (h : host) (program : string)
    (rest : list string) (w : world) (msg : string) :
  stat_error h (program_path h program) (fs w) = Some msg ->
  execute_cdp h (program :: rest) w = (inl (OtherException msg), w).
Proof.
  intros Hstat. unfold execute_cdp, Py.bind.
  by rewrite (run_cdp_command_stat_raises h program rest w msg Hstat).
Qed.

Lemma execute_cdp_probe_error_escapes_witness :
  fs studio !! program_path (strict_host (inl (OtherException "unused"))) (letters 300)
  = None
  /\ execute_cdp (strict_host (inl (OtherException "unused"))) [letters 300] studio
     = (inl (OtherException
               ("[Errno 36] File name too long: '/opt/cdp/" ++ letters 300 ++ "'")),
        studio).
Proof.
  split; [vm_compute; reflexivity|].
  apply (execute_cdp_probe_error_escapes
           (strict_host (inl (OtherException "unused"))) (letters 300) [] studio
           ("[Errno 36] File name too long: '/opt/cdp/" ++ letters 300 ++ "'")).
  vm_compute. reflexivity.
Defined.

(** ** [execute_cdp]: exit code 1 with an error message *)

(** C3, as the code has it.  Let the run yield exit code 1, an empty
    stdout and a non-empty stderr.  Every record [execute_cdp] then returns
    has status ["success"] if the array has more than two elements and its
    last element exists as a path after the run, and ["failed"] otherwise.
    A record is returned whenever the probe of the last element is
    answered. *)
Theorem execute_cdp_exit_one_stderr (h : host) (command : list string)
    (w w1 : world) (err : string) :
  err <> "" ->
  run_cdp_command h command w = (inr (1, "", err), w1) ->
  (stat_error h (Path.parse (last_arg command)) (fs w1) = None ->
   exists r : gmap string pyval, execute_cdp h command w = (inr r, w1))
  /\ forall (r : gmap string pyval) (w' : world),
       execute_cdp h command w = (inr r, w') ->
       w' = w1
       /\ ((2 < List.length command)%nat
           /\ is_Some (fs w1 !! Path.parse (last_arg command)) ->
           r !! "status" = Some (VStr "success"))
       /\ (~ ((2 < List.length command)%nat
              /\ is_Some (fs w1 !! Path.parse (last_arg command))) ->
           r !! "status" = Some (VStr "failed")).
Proof.
  intros Herr Hrun.
  assert (command <> []) as Hne by (intros ->; discriminate Hrun).
  split.
  - intros Hstat.
    apply (execute_cdp_returns h command w w1 1 "" err Hne Hrun). by intros _.
  - intros r w' Hexec.
    destruct (execute_cdp_fields h command w w1 w' _ _ _ r Hne Hrun Hexec)
      as (-> & Hstatus & _).
    split; [done|]. rewrite Hstatus.
    destruct (inferred_success command 1 "" err (fs w1)) eqn:Hs.
    + split; [done|]. intros Hnot. exfalso. apply Hnot.
      apply inferred_success_true in Hs as [Hs | [(_ & Hs & _) | Hs]]; done.
    + split; [|done]. intros Hfile. exfalso.
      assert (inferred_success command 1 "" err (fs w1) = true) as Hs'
        by (apply inferred_success_true; auto).
      congruence.
Qed.

Lemma execute_cdp_exit_one_stderr_witness :
  (stat_error (completes 1 "" "pvoc: no such file")
     (Path.parse (last_arg ["pvoc"; "anal"; "1"; "gone.wav"; "out.ana"]))
     (fs (after_command (completes 1 "" "pvoc: no such file") "pvoc"
            ["anal"; "1"; "gone.wav"; "out.ana"] studio)) = None ->
   exists r : gmap string pyval,
     execute_cdp (completes 1 "" "pvoc: no such file")
       ["pvoc"; "anal"; "1"; "gone.wav"; "out.ana"] studio
     = (inr r, after_command (completes 1 "" "pvoc: no such file") "pvoc"
                 ["anal"; "1"; "gone.wav"; "out.ana"] studio))
  /\ forall (r : gmap string pyval) (w' : world),
       execute_cdp (completes 1 "" "pvoc: no such file")
         ["pvoc"; "anal"; "1"; "gone.wav"; "out.ana"] studio
       = (inr r, w') ->
       w' = after_command (completes 1 "" "pvoc: no such file") "pvoc"
              ["anal"; "1"; "gone.wav"; "out.ana"] studio
       /\ ((2 < List.length ["pvoc"; "anal"; "1"; "gone.wav"; "out.ana"])%nat
           /\ is_Some
                (fs (after_command (completes 1 "" "pvoc: no such file") "pvoc"
                       ["anal"; "1"; "gone.wav"; "out.ana"] studio)
                 !! Path.parse (last_arg ["pvoc"; "anal"; "1"; "gone.wav"; "out.ana"])) ->
           r !! "status" = Some (VStr "success"))
       /\ (~ ((2 < List.length ["pvoc"; "anal"; "1"; "gone.wav"; "out.ana"])%nat
              /\ is_Some
                   (fs (after_command (completes 1 "" "pvoc: no such file") "pvoc"
                          ["anal"; "1"; "gone.wav"; "out.ana"] studio)
                    !! Path.parse (last_arg ["pvoc"; "anal"; "1"; "gone.wav"; "out.ana"]))) ->
           r !! "status" = Some (VStr "failed")).
Proof.
  apply (execute_cdp_exit_one_stderr (completes 1 "" "pvoc: no such file")
           ["pvoc"; "anal"; "1"; "gone.wav"; "out.ana"] studio
           (after_command (completes 1 "" "pvoc: no such file") "pvoc"
              ["anal"; "1"; "gone.wav"; "out.ana"] studio)
           "pvoc: no such file").
  - discriminate.
  - reflexivity.
Defined.

(** C3, as stated, fails.  [sndinfo in.wav] exits with code 1, prints
    nothing on stdout and an error on stderr; [in.wav], its last argument,
    exists, yet the status is ["failed"] because the array has only two
    elements. *)
Lemma execute_cdp_short_command_counterexample :
  run_cdp_command (completes 1 "" "sndinfo: bad header") ["sndinfo"; "in.wav"] studio
  = (inr (1, "", "sndinfo: bad header"),
     {| fs := studio_fs;
        spawned := [ {| argv := ["/opt/cdp/sndinfo"; "in.wav"];
                        cwd := Some "/tmp/cdp_mcp";
                        timeout := None |} ];
        console := ["Executing: /opt/cdp/sndinfo in.wav"] |})
  /\ studio_fs !! Path.parse (last_arg ["sndinfo"; "in.wav"])
     = Some (RegularFile false [])
  /\ status_of
       (execute_cdp (completes 1 "" "sndinfo: bad header") ["sndinfo"; "in.wav"] studio)
     = Some (VStr "failed").
Proof. repeat split; reflexivity. Qed.

(** ** [execute_cdp]: exit code 0 *)

(** C4.  Let the run yield exit code 0.  Every record [execute_cdp] then
    returns has status ["success"], whatever stdout and stderr hold; and a
    record is returned unless the last element is reported as an output
    file and the probe of it is refused. *)
Theorem execute_cdp_exit_zero (h : host) (command : list string)
    (w w1 : world) (out err : string) :
  run_cdp_command h command w = (inr (0, out, err), w1) ->
  ((reports_output_file command = true ->
    stat_error h (Path.parse (last_arg command)) (fs w1) = None) ->
   exists r : gmap string pyval, execute_cdp h command w = (inr r, w1))
  /\ forall (r : gmap string pyval) (w' : world),
       execute_cdp h command w = (inr r, w') ->
       w' = w1 /\ r !! "status" = Some (VStr "success").
Proof.
  intros Hrun.
  assert (command <> []) as Hne by (intros ->; discriminate Hrun).
  split.
  - intros Hstat.
    by apply (execute_cdp_returns h command w w1 0 out err Hne Hrun).
  - intros r w' Hexec.
    destruct (execute_cdp_fields h command w w1 w' _ _ _ r Hne Hrun Hexec)
      as (-> & Hstatus & _).
    by rewrite Hstatus.
Qed.

Lemma execute_cdp_exit_zero_witness :
  ((reports_output_file ["sndinfo"; "props"; "in.wav"] = true ->
    stat_error (completes 0 "" "WARNING: clipped")
      (Path.parse (last_arg ["sndinfo"; "props"; "in.wav"]))
      (fs (after_command (completes 0 "" "WARNING: clipped") "sndinfo"
             ["props"; "in.wav"] studio)) = None) ->
   exists r : gmap string pyval,
     execute_cdp (completes 0 "" "WARNING: clipped") ["sndinfo"; "props"; "in.wav"] studio
     = (inr r, after_command (completes 0 "" "WARNING: clipped") "sndinfo"
                 ["props"; "in.wav"] studio))
  /\ forall (r : gmap string pyval) (w' : world),
       execute_cdp (completes 0 "" "WARNING: clipped") ["sndinfo"; "props"; "in.wav"] studio
       = (inr r, w') ->
       w' = after_command (completes 0 "" "WARNING: clipped") "sndinfo"
              ["props"; "in.wav"] studio
       /\ r !! "status" = Some (VStr "success").
Proof.
  apply (execute_cdp_exit_zero (completes 0 "" "WARNING: clipped")
           ["sndinfo"; "props"; "in.wav"] studio
           (after_command (completes 0 "" "WARNING: clipped") "sndinfo"
              ["props"; "in.wav"] studio)
           "" "WARNING: clipped").
  reflexivity.
Defined.

(** ** [execute_cdp]: the output-file report *)

(** C9.  Let the run of a non-empty command array return.  Every record
    [execute_cdp] then returns holds [output_file], bound to the last
    element, exactly when the array has more than two elements and the last
    element does not start with a dash and contains a dot; it holds
    [output_exists], bound to [True], exactly when moreover that path exists
    after the run.  In every other case the key is absent, so
    [output_exists] is never [False].  A record is returned whenever the
    probe of the last element is answered. *)
Theorem execute_cdp_output_file (h : host) (command : list string)
    (w w1 : world) (exit_code : Z) (out err : string) :
  command <> [] ->
  run_cdp_command h command w = (inr (exit_code, out, err), w1) ->
  (stat_error h (Path.parse (last_arg command)) (fs w1) = None ->
   exists r : gmap string pyval, execute_cdp h command w = (inr r, w1))
  /\ forall (r : gmap string pyval) (w' : world),
       execute_cdp h command w = (inr r, w') ->
       let named :=
         (2 < List.length command)%nat
         /\ ~ (exists tail, last_arg command = "-" ++ tail)
         /\ PyStr.substring_of "." (last_arg command) in
       let present := is_Some (fs w' !! Path.parse (last_arg command)) in
       (named -> r !! "output_file" = Some (VStr (last_arg command)))
       /\ (~ named -> r !! "output_file" = None)
       /\ (named /\ present -> r !! "output_exists" = Some (VBool true))
       /\ (~ (named /\ present) -> r !! "output_exists" = None).
Proof.
  intros Hne Hrun. split.
  { intros Hstat.
    apply (execute_cdp_returns h command w w1 exit_code out err Hne Hrun).
    by intros _. }
  intros r w' Hexec.
  destruct (execute_cdp_fields h command w w1 w' _ _ _ r Hne Hrun Hexec)
    as (-> & _ & _ & _ & _ & _ & _ & Hfile & Hexists & _).
  cbv zeta. rewrite Hfile, Hexists.
  pose proof (reports_output_file_true command) as Hnamed.
  destruct (reports_output_file command); cbn [andb].
  - destruct (bool_decide_reflect (is_Some (fs w1 !! Path.parse (last_arg command))))
      as [Hyes | Hno].
    + repeat split; try done.
      * intros Hnot. exfalso. apply Hnot. by apply Hnamed.
      * intros Hnot. exfalso. apply Hnot. split; [by apply Hnamed | done].
    + repeat split; try done.
      * intros Hnot. exfalso. apply Hnot. by apply Hnamed.
      * intros [_ Hyes]. done.
  - assert (~ ((2 < List.length command)%nat
               /\ ~ (exists tail, last_arg command = "-" ++ tail)
               /\ PyStr.substring_of "." (last_arg command))) as Hnot.
    { intros Hyes. apply Hnamed in Hyes. discriminate. }
    repeat split; try done.
    intros [Hyes _]. done.
Qed.

Lemma execute_cdp_output_file_witness :
  (stat_error (completes 0 "" "")
     (Path.parse (last_arg ["pvoc"; "anal"; "1"; "in.wav"; "out.ana"]))
     (fs (after_command (completes 0 "" "") "pvoc"
            ["anal"; "1"; "in.wav"; "out.ana"] studio)) = None ->
   exists r : gmap string pyval,
     execute_cdp (completes 0 "" "") ["pvoc"; "anal"; "1"; "in.wav"; "out.ana"] studio
     = (inr r, after_command (completes 0 "" "") "pvoc"
                 ["anal"; "1"; "in.wav"; "out.ana"] studio))
  /\ forall (r : gmap string pyval) (w' : world),
       execute_cdp (completes 0 "" "") ["pvoc"; "anal"; "1"; "in.wav"; "out.ana"] studio
       = (inr r, w') ->
       let named :=
         (2 < List.length ["pvoc"; "anal"; "1"; "in.wav"; "out.ana"])%nat
         /\ ~ (exists tail,
                 last_arg ["pvoc"; "anal"; "1"; "in.wav"; "out.ana"] = "-" ++ tail)
         /\ PyStr.substring_of "." (last_arg ["pvoc"; "anal"; "1"; "in.wav"; "out.ana"]) in
       let present :=
         is_Some (fs w' !! Path.parse (last_arg ["pvoc"; "anal"; "1"; "in.wav"; "out.ana"])) in
       (named -> r !! "output_file"
                 = Some (VStr (last_arg ["pvoc"; "anal"; "1"; "in.wav"; "out.ana"])))
       /\ (~ named -> r !! "output_file" = None)
       /\ (named /\ present -> r !! "output_exists" = Some (VBool true))
       /\ (~ (named /\ present) -> r !! "output_exists" = None).
Proof.
  apply (execute_cdp_output_file (completes 0 "" "")
           ["pvoc"; "anal"; "1"; "in.wav"; "out.ana"] studio
           (after_command (completes 0 "" "") "pvoc"
              ["anal"; "1"; "in.wav"; "out.ana"] studio)
           0 "" "").
  - discriminate.
  - reflexivity.
Defined.

(** ** [execute_cdp]: the empty command array *)

(** C10.  For the empty array [execute_cdp] returns the two-entry
    dictionary with status ["failed"] and an error message; the keys
    [exit_code], [command], [stdout] and [stderr] are absent, and the host
    is left as it was, so no process was spawned. *)
Theorem execute_cdp_empty_command (h : host) (w : world) :
  exists r : gmap string pyval,
    execute_cdp h [] w = (inr r, w)
    /\ r !! "status" = Some (VStr "failed")
    /\ r !! "error" = Some (VStr "Empty command array provided")
    /\ r !! "exit_code" = None
    /\ r !! "command" = None
    /\ r !! "stdout" = None
    /\ r !! "stderr" = None
    /\ dom r = {[ "status"; "error" ]}
    /\ spawned (snd (execute_cdp h [] w)) = spawned w.
Proof.
  eexists. split; [reflexivity|].
  repeat split; reflexivity.
Qed.

(** ** [create_data_file] *)

Lemma universal_newlines_without_cr (s : string) :
  PyStr.contains (String "013" EmptyString) s = false ->
  PyStr.universal_newlines s = s.
Proof.
  induction s as [|c s IH]; [done|].
  cbn [PyStr.contains String.prefix].
  intros [Hhead Htail]%orb_false_iff.
  cbn [PyStr.universal_newlines].
  destruct (Ascii.eqb_spec c "013") as [->|Hc].
  - exfalso. revert Hhead. destruct (ascii_dec "013" "013"); [|done]. by destruct s.
  - by rewrite IH.
Qed.

(** What [create_data_file] does on a host that lets it write. *)
Lemma create_data_file_written (h : host) (filepath content : string) (w : world) :
  writable h (fs w) (data_file_path h filepath) content ->
  create_data_file h filepath content w
  = (inr {[ "status" := VStr "success";
            "filepath" := VStr (data_file_name h filepath);
            "lines" := VInt (Z.of_nat
                               (List.length (PyStr.split "010" (PyStr.strip content))));
            "size" := VInt (Z.of_nat (String.length content));
            "preview" := VStr (if (200 <? String.length content)%nat
                               then PyStr.take 200 content ++ "..."
                               else content) ]},
     {| fs := <[data_file_path h filepath :=
                  RegularFile (Path.mode_at (fs w) (data_file_path h filepath))
                    (Utf8.encode content)]> (fs w);
        spawned := spawned w;
        console := console w |}).
Proof.
  intros (Hopen & Hnodir & Hparent & Hwrite & Hstat).
  unfold create_data_file, Py.try_except_all, Py.bind, Path.write_text,
    Path.exists_, Py.ret.
  cbv beta zeta. fold (data_file_path h filepath).
  rewrite Hopen, Hparent, Hwrite.
  destruct (fs w !! data_file_path h filepath) as [[x data|]|]; [|done|];
    cbn [fs]; rewrite Hstat, lookup_insert_eq;
    by rewrite bool_decide_eq_true_2 by eauto.
Qed.

(** C5.  On a host that lets the file [TEMP_DIR / "notes.txt"] be written
    and examined, [create_data_file("notes.txt", texture_notes)] reports
    success with [lines] 2 and [size] 29, which is the number of bytes
    written; the file then holds exactly the encoded content, and reading it
    back as text gives the content again. *)
Theorem create_data_file_texture_notes (h : host) (w : world) :
  writable h (fs w) (data_file_path h "notes.txt") texture_notes ->
  exists (r : gmap string pyval) (w' : world),
    create_data_file h "notes.txt" texture_notes w = (inr r, w')
    /\ r !! "status" = Some (VStr "success")
    /\ r !! "filepath" = Some (VStr (Path.str (Path.div (TEMP_DIR h) "notes.txt")))
    /\ r !! "lines" = Some (VInt 2)
    /\ r !! "size" = Some (VInt 29)
    /\ Z.of_nat (List.length (Utf8.encode texture_notes)) = 29
    /\ (exists x : bool,
          fs w' !! Path.parse (Path.str (Path.div (TEMP_DIR h) "notes.txt"))
          = Some (RegularFile x (Utf8.encode texture_notes)))
    /\ Path.read_text (fs w') (Path.parse (Path.str (Path.div (TEMP_DIR h) "notes.txt")))
       = Some texture_notes.
Proof.
  intros Hhost. eexists _, _.
  split; [by apply create_data_file_written|]. cbn [fs].
  change (Path.parse (Path.str (Path.div (TEMP_DIR h) "notes.txt")))
    with (data_file_path h "notes.txt").
  unfold Path.read_text. rewrite !lookup_insert_eq.
  repeat split; try reflexivity; eauto.
Qed.

Lemma create_data_file_texture_notes_witness :
  exists (r : gmap string pyval) (w' : world),
    create_data_file idle_host "notes.txt" texture_notes studio = (inr r, w')
    /\ r !! "status" = Some (VStr "success")
    /\ r !! "filepath"
       = Some (VStr (Path.str (Path.div (TEMP_DIR idle_host) "notes.txt")))
    /\ r !! "lines" = Some (VInt 2)
    /\ r !! "size" = Some (VInt 29)
    /\ Z.of_nat (List.length (Utf8.encode texture_notes)) = 29
    /\ (exists x : bool,
          fs w' !! Path.parse (Path.str (Path.div (TEMP_DIR idle_host) "notes.txt"))
          = Some (RegularFile x (Utf8.encode texture_notes)))
    /\ Path.read_text (fs w')
         (Path.parse (Path.str (Path.div (TEMP_DIR idle_host) "notes.txt")))
       = Some texture_notes.
Proof.
  apply (create_data_file_texture_notes idle_host studio).
  unfold writable. split; [reflexivity|]. split; [vm_compute; discriminate|].
  split; [vm_compute; reflexivity|]. split; reflexivity.
Defined.

(** ** Further properties of [create_data_file] *)

(** X12.  On a host that lets the file be written and examined,
    [create_data_file] stores the encoded content at the given path if it is
    absolute and at [TEMP_DIR / filepath] otherwise, and reports that path as
    [pathlib] prints it.  Reading the file back as text gives the content
    with every carriage return, alone or before a line feed, turned into a
    line feed, hence the content itself when it has no carriage return.  An
    existing file keeps its execute permission, and no process is
    spawned. *)
Theorem create_data_file_round_trip (h : host) (filepath content : string)
    (w : world) :
  writable h (fs w) (data_file_path h filepath) content ->
  exists (r : gmap string pyval) (w' : world),
    create_data_file h filepath content w = (inr r, w')
    /\ r !! "status" = Some (VStr "success")
    /\ r !! "filepath"
       = Some (VStr (if Path.isabs filepath then filepath
                     else Path.str (Path.div (TEMP_DIR h) filepath)))
    /\ (exists x : bool,
          fs w' !! data_file_path h filepath
          = Some (RegularFile x (Utf8.encode content)))
    /\ Path.read_text (fs w') (data_file_path h filepath)
       = Some (PyStr.universal_newlines content)
    /\ (PyStr.contains (String "013" EmptyString) content = false ->
        Path.read_text (fs w') (data_file_path h filepath) = Some content)
    /\ Path.mode_at (fs w') (data_file_path h filepath)
       = Path.mode_at (fs w) (data_file_path h filepath)
    /\ spawned w' = spawned w.
Proof.
  intros Hhost. eexists _, _.
  split; [by apply create_data_file_written|]. cbn [fs spawned].
  unfold Path.read_text, Path.mode_at. rewrite !lookup_insert_eq, utf8_round_trip.
  repeat split; try reflexivity.
  - unfold data_file_name. by destruct (Path.isabs filepath).
  - by eexists.
  - intros Hcr. cbn. by rewrite universal_newlines_without_cr.
Qed.

Lemma create_data_file_round_trip_witness :
  exists (r : gmap string pyval) (w' : world),
    create_data_file idle_host "/tmp/times.txt" "0.0
1.5" studio
    = (inr r, w')
    /\ r !! "status" = Some (VStr "success")
    /\ r !! "filepath"
       = Some (VStr (if Path.isabs "/tmp/times.txt" then "/tmp/times.txt"
                     else Path.str (Path.div (TEMP_DIR idle_host) "/tmp/times.txt")))
    /\ (exists x : bool,
          fs w' !! data_file_path idle_host "/tmp/times.txt"
          = Some (RegularFile x (Utf8.encode "0.0
1.5")))
    /\ Path.read_text (fs w') (data_file_path idle_host "/tmp/times.txt")
       = Some (PyStr.universal_newlines "0.0
1.5")
    /\ (PyStr.contains (String "013" EmptyString) "0.0
1.5" = false ->
        Path.read_text (fs w') (data_file_path idle_host "/tmp/times.txt")
        = Some "0.0
1.5")
    /\ Path.mode_at (fs w') (data_file_path idle_host "/tmp/times.txt")
       = Path.mode_at (fs studio) (data_file_path idle_host "/tmp/times.txt")
    /\ spawned w' = spawned studio.
Proof.
  apply (create_data_file_round_trip idle_host "/tmp/times.txt" "0.0
1.5" studio).
  unfold writable. split; [reflexivity|]. split; [vm_compute; discriminate|].
  split; [vm_compute; reflexivity|]. split; reflexivity.
Defined.

(** A carriage return in the content does not come back as it was
    written. *)
Example create_data_file_carriage_return :
  exists (r : gmap string pyval) (w' : world),
    create_data_file idle_host "dos.txt" (String "a" (String "013" (String "010" "b")))
      studio
    = (inr r, w')
    /\ r !! "status" = Some (VStr "success")
    /\ r !! "size" = Some (VInt 4)
    /\ Path.read_text (fs w') (data_file_path idle_host "dos.txt")
       = Some (String "a" (String "010" "b")).
Proof.
  eexists _, _. split.
  - apply create_data_file_written.
    unfold writable. split; [reflexivity|]. split; [vm_compute; discriminate|].
    split; [vm_compute; reflexivity|]. split; reflexivity.
  - repeat split; reflexivity.
Qed.

(** X13.  When the host refuses to open the file for writing,
    [create_data_file] does not raise: it returns exactly the status
    ["failed"] and the error ["Failed to create data file: "] followed by
    the text of the exception, and the host is left as it was. *)
Theorem create_data_file_refused (h : host) (filepath content : string)
    (w : world) (str_e : string) :
  open_w_error h (data_file_path h filepath) (fs w) = Some str_e ->
  create_data_file h filepath content w
  = (inr {[ "status" := VStr "failed";
            "error" := VStr ("Failed to create data file: " ++ str_e) ]},
     w).
Proof.
  intros Hopen.
  unfold create_data_file, Py.try_except_all, Py.bind, Path.write_text, Py.raise.
  cbv beta zeta. fold (data_file_path h filepath).
  by rewrite Hopen.
Qed.

Lemma create_data_file_refused_witness :
  create_data_file read_only_host "notes.txt" texture_notes studio
  = (inr {[ "status" := VStr "failed";
            "error" := VStr ("Failed to create data file: "
                             ++ "[Errno 30] Read-only file system: '/tmp/cdp_mcp/notes.txt'") ]},
     studio).
Proof.
  apply (create_data_file_refused read_only_host "notes.txt" texture_notes studio
           "[Errno 30] Read-only file system: '/tmp/cdp_mcp/notes.txt'").
  reflexivity.
Defined.

(** X25.  When the file is opened and the write then fails,
    [create_data_file] does not raise either and returns the same kind of
    record, but the host is not as it was: the file now exists and holds
    only the bytes that reached it, none at all on a full disk, whatever it
    held before. *)
Theorem create_data_file_write_fails (h : host) (filepath content : string)
    (w : world) (str_e : string) (reached : list byte) :
  open_w_error h (data_file_path h filepath) (fs w) = None ->
  fs w !! data_file_path h filepath <> Some Directory ->
  fs w !! Path.parent (data_file_path h filepath) = Some Directory ->
  write_error h (data_file_path h filepath) content (fs w) = Some (str_e, reached) ->
  exists w' : world,
    create_data_file h filepath content w
    = (inr {[ "status" := VStr "failed";
              "error" := VStr ("Failed to create data file: " ++ str_e) ]},
       w')
    /\ (exists x : bool,
          fs w' !! data_file_path h filepath = Some (RegularFile x reached))
    /\ spawned w' = spawned w
    /\ console w' = console w.
Proof.
  intros Hopen Hnodir Hparent Hwrite.
  unfold create_data_file, Py.try_except_all, Py.bind, Path.write_text, Py.raise.
  cbv beta zeta. fold (data_file_path h filepath).
  rewrite Hopen, Hparent, Hwrite.
  destruct (fs w !! data_file_path h filepath) as [[x data|]|]; [|done|];
    eexists; (split; [reflexivity|]); cbn [fs spawned console];
    rewrite lookup_insert_eq; eauto.
Qed.

Lemma create_data_file_write_fails_witness :
  exists w' : world,
    create_data_file full_disk_host "in.wav" texture_notes
      {| fs := <[Path.parse "/tmp/cdp_mcp/in.wav" := RegularFile false [x52; x49]]> studio_fs;
         spawned := [];
         console := [] |}
    = (inr {[ "status" := VStr "failed";
              "error" := VStr ("Failed to create data file: "
                               ++ "[Errno 28] No space left on device") ]},
       w')
    /\ (exists x : bool,
          fs w' !! data_file_path full_disk_host "in.wav" = Some (RegularFile x []))
    /\ spawned w' = []
    /\ console w' = [].
Proof.
  apply (create_data_file_write_fails full_disk_host "in.wav" texture_notes
           {| fs := <[Path.parse "/tmp/cdp_mcp/in.wav" := RegularFile false [x52; x49]]>
                      studio_fs;
              spawned := [];
              console := [] |}
           "[Errno 28] No space left on device" []).
  - reflexivity.
  - vm_compute. discriminate.
  - vm_compute. reflexivity.
  - reflexivity.
Defined.

(** X14.  A path that resolves to a directory cannot be written: the
    result is a failure whose error starts with
    ["Failed to create data file: "], and the host is left as it was.  The
    empty path is such a case whenever [TEMP_DIR] is a directory, because it
    resolves to [TEMP_DIR] itself. *)
Theorem create_data_file_on_directory (h : host) (filepath content : string)
    (w : world) :
  fs w !! data_file_path h filepath = Some Directory ->
  data_file_name h "" = Path.str (TEMP_DIR h)
  /\ exists str_e : string,
       create_data_file h filepath content w
       = (inr {[ "status" := VStr "failed";
                 "error" := VStr ("Failed to create data file: " ++ str_e) ]},
          w).
Proof.
  intros Hdir. split.
  { unfold data_file_name, Path.div, Path.str. cbn. by rewrite app_nil_r. }
  unfold create_data_file, Py.try_except_all, Py.bind, Path.write_text, Py.raise.
  cbv beta zeta. fold (data_file_path h filepath).
  rewrite Hdir.
  destruct (open_w_error h (data_file_path h filepath) (fs w)) as [msg|];
    eexists; reflexivity.
Qed.

Lemma create_data_file_on_directory_witness :
  data_file_name idle_host "" = Path.str (TEMP_DIR idle_host)
  /\ exists str_e : string,
       create_data_file idle_host "" texture_notes studio
       = (inr {[ "status" := VStr "failed";
                 "error" := VStr ("Failed to create data file: " ++ str_e) ]},
          studio).
Proof.
  apply (create_data_file_on_directory idle_host "" texture_notes studio).
  vm_compute. reflexivity.
Defined.

Lemma encode_char_length (c : ascii) :
  ((N_of_ascii c < 128)%N /\ List.length (Utf8.encode_char c) = 1%nat)
  \/ ((128 <= N_of_ascii c)%N /\ List.length (Utf8.encode_char c) = 2%nat).
Proof.
  destruct c as [b0 b1 b2 b3 b4 b5 b6 [|]]; [right | left];
    (split; [|reflexivity]); destruct b0, b1, b2, b3, b4, b5, b6; vm_compute;
    congruence.
Qed.

Lemma utf8_length_ge (s : string) :
  (String.length s <= List.length (Utf8.encode s))%nat.
Proof.
  induction s as [|c s IH]; [done|]. cbn [Utf8.encode String.length].
  rewrite length_app.
  destruct (encode_char_length c) as [[_ ->] | [_ ->]]; lia.
Qed.

Lemma utf8_length_eq_ascii (s : string) :
  List.length (Utf8.encode s) = String.length s <-> is_ascii s.
Proof.
  split; [|apply utf8_ascii_length].
  unfold is_ascii. induction s as [|c s IH]; [constructor|].
  cbn [Utf8.encode String.length list_ascii_of_string]. rewrite length_app.
  pose proof (utf8_length_ge s).
  destruct (encode_char_length c) as [[Hc ->] | [_ ->]]; intros Hlen; [|lia].
  constructor; [done|]. apply IH. lia.
Qed.

(** X15.  The [size] that [create_data_file] reports is the number of
    characters of the content.  The number of bytes it wrote is at least
    that, and the two agree exactly when the content is pure ASCII. *)
Theorem create_data_file_size (h : host) (filepath content : string) (w : world) :
  writable h (fs w) (data_file_path h filepath) content ->
  exists (r : gmap string pyval) (w' : world) (x : bool) (data : list byte),
    create_data_file h filepath content w = (inr r, w')
    /\ fs w' !! data_file_path h filepath = Some (RegularFile x data)
    /\ r !! "size" = Some (VInt (Z.of_nat (String.length content)))
    /\ Z.of_nat (String.length content) <= Z.of_nat (List.length data)
    /\ (Z.of_nat (String.length content) = Z.of_nat (List.length data)
        <-> is_ascii content).
Proof.
  intros Hhost. eexists _, _, _, _.
  split; [by apply create_data_file_written|]. cbn [fs].
  split; [apply lookup_insert_eq|]. split; [reflexivity|].
  pose proof (utf8_length_ge content) as Hge.
  pose proof (utf8_length_eq_ascii content) as Heq.
  split; [lia|]. rewrite Nat2Z.inj_iff.
  split; [intros Hlen; by apply Heq | intros Hascii; symmetry; by apply Heq].
Qed.

Lemma create_data_file_size_witness :
  exists (r : gmap string pyval) (w' : world) (x : bool) (data : list byte),
    create_data_file idle_host "notes.txt" texture_notes studio = (inr r, w')
    /\ fs w' !! data_file_path idle_host "notes.txt" = Some (RegularFile x data)
    /\ r !! "size" = Some (VInt (Z.of_nat (String.length texture_notes)))
    /\ Z.of_nat (String.length texture_notes) <= Z.of_nat (List.length data)
    /\ (Z.of_nat (String.length texture_notes) = Z.of_nat (List.length data)
        <-> is_ascii texture_notes).
Proof.
  apply (create_data_file_size idle_host "notes.txt" texture_notes studio).
  unfold writable. split; [reflexivity|]. split; [vm_compute; discriminate|].
  split; [vm_compute; reflexivity|]. split; reflexivity.
Defined.

Lemma split_go_nonempty (sep : ascii) (cur s : string) :
  (1 <= List.length (PyStr.split_go sep cur s))%nat.
Proof.
  revert cur. induction s as [|c s IH]; intros cur; cbn [PyStr.split_go].
  - cbn. lia.
  - destruct (Ascii.eqb c sep); [cbn; lia | apply IH].
Qed.

Lemma lstrip_blank (s : string) :
  Forall (fun c => PyStr.isspace c = true) (list_ascii_of_string s) ->
  PyStr.lstrip s = "".
Proof.
  induction s as [|c s IH]; [done|]. cbn [list_ascii_of_string PyStr.lstrip].
  intros [Hc Hs]%Forall_cons. rewrite Hc. by apply IH.
Qed.

(** X16.  The [lines] that [create_data_file] reports is never zero, and
    it is 1 for a content made of white space only, the empty content
    included. *)
Theorem create_data_file_lines (h : host) (filepath content : string) (w : world) :
  writable h (fs w) (data_file_path h filepath) content ->
  exists (r : gmap string pyval) (w' : world) (n : Z),
    create_data_file h filepath content w = (inr r, w')
    /\ r !! "lines" = Some (VInt n)
    /\ 1 <= n
    /\ (Forall (fun c => PyStr.isspace c = true) (list_ascii_of_string content) ->
        n = 1).
Proof.
  intros Hhost. eexists _, _, _.
  split; [by apply create_data_file_written|]. split; [reflexivity|].
  split.
  - pose proof (split_go_nonempty "010" "" (PyStr.strip content)).
    unfold PyStr.split. lia.
  - intros Hblank. unfold PyStr.strip. by rewrite (lstrip_blank _ Hblank).
Qed.

Lemma create_data_file_lines_witness :
  exists (r : gmap string pyval) (w' : world) (n : Z),
    create_data_file idle_host "empty.txt" "" studio = (inr r, w')
    /\ r !! "lines" = Some (VInt n)
    /\ 1 <= n
    /\ (Forall (fun c => PyStr.isspace c = true) (list_ascii_of_string "") ->
        n = 1).
Proof.
  apply (create_data_file_lines idle_host "empty.txt" "" studio).
  unfold writable. split; [reflexivity|]. split; [vm_compute; discriminate|].
  split; [vm_compute; reflexivity|]. split; reflexivity.
Defined.

Lemma string_length_append (s t : string) :
  String.length (s ++ t) = (String.length s + String.length t)%nat.
Proof. induction s as [|c s IH]; [done|]. cbn. by rewrite <- IH. Qed.

Lemma take_length (n : nat) (s : string) :
  (n <= String.length s)%nat -> String.length (PyStr.take n s) = n.
Proof.
  revert s. induction n as [|n IH]; intros s Hn; [done|].
  destruct s as [|c s]; cbn in *; [lia|]. rewrite IH; lia.
Qed.

Lemma take_prefix (n : nat) (s : string) :
  exists rest, s = PyStr.take n s ++ rest.
Proof.
  revert s. induction n as [|n IH]; intros s; [by exists s|].
  destruct s as [|c s]; [by exists ""|].
  destruct (IH s) as [rest Hrest]. exists rest. cbn [PyStr.take].
  change (String c s = String c (PyStr.take n s ++ rest)). by rewrite <- Hrest.
Qed.

(** X17.  The [preview] that [create_data_file] reports is the content
    itself when it has at most 200 characters; otherwise it is the first 200
    characters of the content followed by three dots, 203 characters in
    all. *)
Theorem create_data_file_preview (h : host) (filepath content : string) (w : world) :
  writable h (fs w) (data_file_path h filepath) content ->
  exists (r : gmap string pyval) (w' : world) (preview : string),
    create_data_file h filepath content w = (inr r, w')
    /\ r !! "preview" = Some (VStr preview)
    /\ ((String.length content <= 200)%nat -> preview = content)
    /\ ((200 < String.length content)%nat ->
        String.length preview = 203%nat
        /\ exists head rest,
             preview = head ++ "..."
             /\ content = head ++ rest
             /\ String.length head = 200%nat).
Proof.
  intros Hhost. eexists _, _, _.
  split; [by apply create_data_file_written|]. split; [reflexivity|].
  destruct (Nat.ltb_spec 200 (String.length content)) as [Hlong | Hshort].
  - split; [lia|]. intros _.
    pose proof (take_length 200 content ltac:(lia)) as Htake.
    split; [by rewrite string_length_append, Htake|].
    destruct (take_prefix 200 content) as [rest Hrest].
    by exists (PyStr.take 200 content), rest.
  - split; [done | lia].
Qed.

Lemma create_data_file_preview_witness :
  exists (r : gmap string pyval) (w' : world) (preview : string),
    create_data_file idle_host "notes.txt" texture_notes studio = (inr r, w')
    /\ r !! "preview" = Some (VStr preview)
    /\ ((String.length texture_notes <= 200)%nat -> preview = texture_notes)
    /\ ((200 < String.length texture_notes)%nat ->
        String.length preview = 203%nat
        /\ exists head rest,
             preview = head ++ "..."
             /\ texture_notes = head ++ rest
             /\ String.length head = 200%nat).
Proof.
  apply (create_data_file_preview idle_host "notes.txt" texture_notes studio).
  unfold writable. split; [reflexivity|]. split; [vm_compute; discriminate|].
  split; [vm_compute; reflexivity|]. split; reflexivity.
Defined.

(** ** [list_cdp_programs] *)

(** *** The directory table *)

Lemma child_spec (dir p : path) :
  Path.child dir p = true
  <-> exists n, p = (fst dir, (snd dir ++ [n])%list) /\ Path.entry_name n = true.
Proof.
  unfold Path.child, Path.parent, Path.name. destruct p as [r parts].
  cbn [fst snd]. rewrite !andb_true_iff, bool_decide_eq_true. split.
  - intros [[Hparent Hne] Hname].
    assert (parts <> []) as Hparts by (by destruct parts).
    pose proof (List.app_removelast_last "" Hparts) as Hlast.
    exists (List.last parts ""). split; [|done].
    rewrite <- Hparent. cbn [fst snd]. by rewrite <- Hlast.
  - intros (n & [= -> ->] & Hn).
    rewrite List.removelast_last, List.last_last.
    repeat split; [by destruct dir | by destruct (snd dir) | done].
Qed.

Lemma elem_of_children (files : gmap path inode) (dir p : path) :
  p ∈ Path.children files dir
  <-> is_Some (files !! p) /\ Path.child dir p = true.
Proof.
  unfold Path.children. rewrite list_elem_of_omap. split.
  - intros ([q node] & Hin & Hq). cbn [fst] in Hq.
    destruct (Path.child dir q) eqn:Hchild; [|done]. injection Hq as <-.
    apply elem_of_map_to_list in Hin. eauto.
  - intros [[node Hnode] Hchild]. exists (p, node).
    split; [by apply elem_of_map_to_list|]. cbn [fst]. by rewrite Hchild.
Qed.

Lemma NoDup_omap_inj {A B} (f : A -> option B) (l : list A) :
  NoDup l ->
  (forall x y z, x ∈ l -> y ∈ l -> f x = Some z -> f y = Some z -> x = y) ->
  NoDup (omap f l).
Proof.
  induction 1 as [|x l Hx Hl IH]; intros Hinj; [constructor|].
  cbn [omap list_omap].
  assert (NoDup (omap f l)) as Hrest.
  { apply IH. intros y1 y2 z ? ?. apply Hinj; by apply list_elem_of_further. }
  destruct (f x) as [z|] eqn:Hfx; [|done].
  constructor; [|done]. intros (y & Hy & Hfy)%list_elem_of_omap.
  assert (x = y) as -> by
    (eapply Hinj; eauto using list_elem_of_here, list_elem_of_further).
  done.
Qed.

Lemma children_NoDup (files : gmap path inode) (dir : path) :
  NoDup (Path.children files dir).
Proof.
  unfold Path.children. apply NoDup_omap_inj; [apply NoDup_map_to_list|].
  intros [p1 node1] [p2 node2] z Hin1 Hin2 Hc1 Hc2. cbn [fst] in *.
  destruct (Path.child dir p1); [|done]. destruct (Path.child dir p2); [|done].
  injection Hc1 as ->. injection Hc2 as ->.
  apply elem_of_map_to_list in Hin1, Hin2. congruence.
Qed.

Lemma split_go_no_separator (n cur : string) :
  PyStr.contains "/" n = false ->
  PyStr.split_go "/" cur n = [String.rev_app cur n].
Proof.
  revert cur. induction n as [|c n IH]; intros cur Hno; [done|].
  cbn [PyStr.contains] in Hno. apply orb_false_iff in Hno as [Hhead Hrest].
  cbn [PyStr.split_go].
  destruct (Ascii.eqb_spec c "/") as [->|Hne].
  - by destruct n.
  - by rewrite IH.
Qed.

(** Below a directory, [dir / n] is the entry named [n]. *)
Lemma div_entry (dir : path) (n : string) :
  Path.entry_name n = true ->
  Path.div dir n = (fst dir, (snd dir ++ [n])%list).
Proof.
  unfold Path.entry_name.
  intros [[[Hne Hdot]%andb_true_iff Hdots]%andb_true_iff Hslash%negb_true_iff]%andb_true_iff.
  unfold Path.div, Path.isabs, PyStr.startswith, Path.parts_of, PyStr.split.
  assert (String.prefix "/" n = false) as ->.
  { destruct n; [done|]. cbn [PyStr.contains] in Hslash.
    by apply orb_false_iff in Hslash as [? _]. }
  rewrite split_go_no_separator by done.
  cbn [String.rev_app List.filter]. unfold Path.is_part. by rewrite Hne, Hdot.
Qed.

Lemma program_name_is_entry (n : string) :
  n <> "" ->
  PyStr.contains "/" n = false ->
  PyStr.startswith n "." = false ->
  Path.entry_name n = true.
Proof.
  intros Hne Hslash Hdot. unfold Path.entry_name.
  rewrite Hslash, (proj2 (truthy_nonempty n) Hne). cbn [negb andb].
  destruct (String.eqb_spec n ".") as [->|_]; [discriminate Hdot|].
  destruct (String.eqb_spec n "..") as [->|_]; [discriminate Hdot|].
  done.
Qed.

Lemma scanned_programs_spec (h : host) (files : gmap path inode) (n : string) :
  n ∈ scanned_programs h files <-> is_program h files n.
Proof.
  unfold scanned_programs, is_program. rewrite list_elem_of_omap. split.
  - intros (file & Hfile & Haccepted).
    apply elem_of_children in Hfile as [_ (n' & -> & Hentry)%child_spec].
    rewrite <- (div_entry _ _ Hentry) in Haccepted.
    unfold accepted in Haccepted.
    destruct (files !! Path.div (Path.parse (CDP_PATH h)) n')
      as [[[|] data|]|] eqn:Hnode; try discriminate Haccepted.
    rewrite (div_entry _ _ Hentry) in Haccepted.
    unfold Path.name in Haccepted. cbn [snd] in Haccepted.
    rewrite List.last_last in Haccepted.
    destruct (PyStr.startswith n' ".") eqn:Hdot, (PyStr.endswith n' ".txt") eqn:Htxt;
      cbn [negb andb] in Haccepted; try discriminate Haccepted.
    injection Haccepted as <-.
    unfold Path.entry_name in Hentry.
    apply andb_true_iff in Hentry as [[[Hne _]%andb_true_iff _]%andb_true_iff Hslash].
    apply truthy_nonempty in Hne. apply negb_true_iff in Hslash. eauto 10.
  - intros ([data Hnode] & Hne & Hslash & Hdot & Htxt).
    pose proof (program_name_is_entry n Hne Hslash Hdot) as Hentry.
    exists (Path.div (Path.parse (CDP_PATH h)) n). split.
    + apply elem_of_children. split; [eauto|].
      apply child_spec. exists n. by rewrite div_entry.
    + unfold accepted. rewrite Hnode, (div_entry _ _ Hentry).
      unfold Path.name. cbn [snd]. by rewrite List.last_last, Hdot, Htxt.
Qed.

Lemma scanned_programs_NoDup (h : host) (files : gmap path inode) :
  NoDup (scanned_programs h files).
Proof.
  unfold scanned_programs. apply NoDup_omap_inj; [apply children_NoDup|].
  intros p1 p2 n Hin1 Hin2 Ha1 Ha2.
  apply elem_of_children in Hin1 as [_ (n1 & -> & _)%child_spec].
  apply elem_of_children in Hin2 as [_ (n2 & -> & _)%child_spec].
  unfold accepted, Path.name in Ha1, Ha2. cbn [snd] in Ha1, Ha2.
  rewrite List.last_last in Ha1, Ha2.
  destruct (files !! _) as [[[|] ?|]|] in Ha1; try discriminate Ha1.
  destruct (files !! _) as [[[|] ?|]|] in Ha2; try discriminate Ha2.
  destruct (negb _ && negb _) in Ha1; [|discriminate Ha1].
  destruct (negb _ && negb _) in Ha2; [|discriminate Ha2].
  congruence.
Qed.

(** *** The loop over the directory *)

Lemma scan_loop_step (h : host) (file : path) (rest : list path)
    (programs : list string) (w : world) :
  stat_error h file (fs w) = None ->
  scan_loop h (file :: rest) programs w
  = scan_loop h rest
      (match accepted (fs w) file with
       | Some name => (programs ++ [name])%list
       | None => programs
       end) w.
Proof.
  intros Hstat. cbn [scan_loop].
  unfold Py.bind, Path.is_file, Path.access_X_OK, Py.ret, accepted.
  cbv beta. rewrite Hstat.
  destruct (fs w !! file) as [[[|] data|]|] eqn:Hnode; cbv beta iota;
    rewrite ?Hnode; cbv beta iota;
    try destruct (negb _ && negb _); reflexivity.
Qed.

Lemma scan_loop_refused (h : host) (file : path) (rest : list path)
    (programs : list string) (w : world) (msg : string) :
  stat_error h file (fs w) = Some msg ->
  scan_loop h (file :: rest) programs w = (inl (OtherException msg), w).
Proof.
  intros Hstat. cbn [scan_loop]. unfold Py.bind, Path.is_file. cbv beta.
  by rewrite Hstat.
Qed.

(** The loop either examines every path and collects the accepted names,
    or stops at the first path it cannot examine; it never changes the
    host. *)
Lemma scan_loop_total (h : host) (files : list path) (programs : list string)
    (w : world) :
  (Forall (fun file => stat_error h file (fs w) = None) files
   /\ scan_loop h files programs w
      = (inr (programs ++ omap (accepted (fs w)) files)%list, w))
  \/ (~ Forall (fun file => stat_error h file (fs w) = None) files
      /\ exists msg, scan_loop h files programs w = (inl (OtherException msg), w)).
Proof.
  revert programs. induction files as [|file rest IH]; intros programs.
  - left. split; [constructor|]. cbn. by rewrite app_nil_r.
  - destruct (stat_error h file (fs w)) as [msg|] eqn:Hstat.
    + right. split.
      * intros [Hnone _]%Forall_cons. congruence.
      * exists msg. by apply scan_loop_refused.
    + rewrite (scan_loop_step h file rest programs w Hstat).
      cbn [omap list_omap].
      destruct (IH (match accepted (fs w) file with
                    | Some name => (programs ++ [name])%list
                    | None => programs
                    end)) as [[Hall Hrun] | [Hnot [msg Hrun]]].
      * left. split; [by constructor|]. rewrite Hrun.
        destruct (accepted (fs w) file); [|done]. by rewrite <- app_assoc.
      * right. split; [|by exists msg].
        intros [_ Hall]%Forall_cons. done.
Qed.

(** *** Filing the programs under categories *)

Lemma find_category_Some (prog category : string) :
  find_category prog = Some category ->
  category <> "Other"
  /\ exists progs, (category, progs) ∈ CDP_CATEGORIES /\ prog ∈ progs.
Proof.
  unfold find_category.
  destruct (List.find _ CDP_CATEGORIES) as [[name progs]|] eqn:Hfind; [|done].
  intros [= <-]. apply List.find_some in Hfind as [Hin Hlisted].
  apply bool_decide_eq_true in Hlisted. cbn [snd fst] in *.
  split.
  - intros ->. unfold CDP_CATEGORIES in Hin. cbn [In] in Hin.
    destruct Hin as [Heq | [Heq | [Heq | [Heq | [Heq | []]]]]];
      try discriminate Heq.
    injection Heq as <-. by apply not_elem_of_nil in Hlisted.
  - exists progs. split; [by apply list_elem_of_In | done].
Qed.

Lemma find_category_None (prog : string) :
  find_category prog = None ->
  forall name progs, (name, progs) ∈ CDP_CATEGORIES -> prog ∉ progs.
Proof.
  unfold find_category.
  destruct (List.find _ CDP_CATEGORIES) as [entry|] eqn:Hfind; [done|].
  intros _ name progs Hin%list_elem_of_In Hlisted.
  pose proof (List.find_none _ _ Hfind _ Hin) as Hno. cbn [snd] in Hno.
  by apply bool_decide_eq_false in Hno.
Qed.

Lemma find_category_name (prog category : string) :
  find_category prog = Some category -> category ∈ category_names.
Proof.
  intros (_ & progs & Hin & _)%find_category_Some.
  unfold category_names. apply list_elem_of_In, List.in_map_iff.
  exists (category, progs). split; [done | by apply list_elem_of_In].
Qed.

Lemma category_of_other (prog : string) :
  category_of prog = "Other" <-> find_category prog = None.
Proof.
  unfold category_of. destruct (find_category prog) as [c|] eqn:Hfind; cbn.
  - apply find_category_Some in Hfind as [Hne _]. split; [done | discriminate].
  - done.
Qed.

Lemma category_of_named (prog category : string) :
  category <> "Other" ->
  category_of prog = category <-> find_category prog = Some category.
Proof.
  intros Hne. unfold category_of. destruct (find_category prog) as [c|]; cbn.
  - split; [by intros -> | by intros [= ->]].
  - split; [by intros <- | discriminate].
Qed.

(** What the pair [(categorized, uncategorized)] holds once the programs
    [seen] have been filed. *)
Lemma categorize_step_filed (seen : list string) (prog : string)
    (st : gmap string (list string) * list string) :
  (forall c, fst st !! c
             = if decide (c ∈ category_names)
               then Some (filter (fun p => find_category p = Some c) seen)
               else None) ->
  snd st = filter (fun p => find_category p = None) seen ->
  (forall c, fst (categorize_step st prog) !! c
             = if decide (c ∈ category_names)
               then Some (filter (fun p => find_category p = Some c) (seen ++ [prog])%list)
               else None)
  /\ snd (categorize_step st prog)
     = filter (fun p => find_category p = None) (seen ++ [prog])%list.
Proof.
  intros Hmap Hrest. unfold categorize_step.
  destruct (find_category prog) as [category|] eqn:Hfind; cbn [fst snd].
  - split.
    + intros c. rewrite filter_app. destruct (decide (c = category)) as [->|Hne].
      * rewrite lookup_alter_eq, Hmap.
        rewrite !decide_True by by eapply find_category_name.
        by rewrite filter_cons_True by done.
      * rewrite lookup_alter_ne, Hmap by done.
        rewrite filter_cons_False by congruence. by rewrite app_nil_r.
    + rewrite filter_app, filter_cons_False by congruence.
      by rewrite app_nil_r.
  - split.
    + intros c. rewrite Hmap, filter_app, filter_cons_False by congruence.
      by rewrite app_nil_r.
    + rewrite filter_app, filter_cons_True by done. by rewrite Hrest.
Qed.

Lemma categorize_fold_filed (progs seen : list string)
    (st : gmap string (list string) * list string) :
  (forall c, fst st !! c
             = if decide (c ∈ category_names)
               then Some (filter (fun p => find_category p = Some c) seen)
               else None) ->
  snd st = filter (fun p => find_category p = None) seen ->
  (forall c, fst (List.fold_left categorize_step progs st) !! c
             = if decide (c ∈ category_names)
               then Some (filter (fun p => find_category p = Some c) (seen ++ progs)%list)
               else None)
  /\ snd (List.fold_left categorize_step progs st)
     = filter (fun p => find_category p = None) (seen ++ progs)%list.
Proof.
  revert seen st. induction progs as [|prog progs IH]; intros seen st Hmap Hrest.
  - by rewrite app_nil_r.
  - cbn [List.fold_left].
    destruct (categorize_step_filed seen prog st Hmap Hrest) as [Hmap' Hrest'].
    destruct (IH _ _ Hmap' Hrest') as [Hmap'' Hrest''].
    by rewrite <- app_assoc in Hmap'', Hrest''.
Qed.

Lemma categorized_initially (c : string) :
  (list_to_map (List.map (fun entry => (fst entry, [])) CDP_CATEGORIES)
     : gmap string (list string)) !! c
  = if decide (c ∈ category_names)
    then Some (filter (fun p => find_category p = Some c) [])
    else None.
Proof.
  destruct (decide (c ∈ category_names)) as [Hin | Hout].
  - apply elem_of_list_to_map_1.
    + apply (bool_decide_unpack _). by vm_compute.
    + unfold category_names in Hin.
      apply list_elem_of_In, List.in_map_iff in Hin as ([name progs] & <- & Hin).
      apply list_elem_of_In, List.in_map_iff. by exists (name, progs).
  - apply not_elem_of_list_to_map_1. exact Hout.
Qed.

Lemma never_filed_under_other (progs : list string) :
  filter (fun p => find_category p = Some "Other") progs = [].
Proof.
  induction progs as [|p progs IH]; [done|].
  rewrite filter_cons_False; [exact IH|].
  intros [Hne _]%find_category_Some. done.
Qed.

Lemma error_is_no_category : "error" ∉ category_names.
Proof. apply (bool_decide_unpack _). by vm_compute. Qed.

(** The dictionary built from the collected names, category by
    category. *)
Lemma categorized_listing (programs : list string) :
  exists m : gmap string (list string),
    (let '(categorized, uncategorized) :=
       List.fold_left categorize_step (merge_sort String.le programs)
         (list_to_map (List.map (fun entry => (fst entry, [])) CDP_CATEGORIES), []) in
     filter (fun kv => snd kv <> [])
       match uncategorized with
       | [] => categorized
       | _ :: _ => <["Other" := uncategorized]> categorized
       end) = m
    /\ forall c l,
         m !! c = Some l
         <-> c ∈ category_names
             /\ l <> []
             /\ l = filter (fun p => category_of p = c) (merge_sort String.le programs).
Proof.
  set (sorted := merge_sort String.le programs).
  destruct (categorize_fold_filed sorted []
              (list_to_map (List.map (fun entry => (fst entry, [])) CDP_CATEGORIES), [])
              categorized_initially eq_refl) as [Hmap Hrest].
  cbn [app] in Hmap, Hrest.
  destruct (List.fold_left categorize_step sorted _) as [categorized uncategorized].
  cbn [fst snd] in Hmap, Hrest.
  set (final := match uncategorized with
                | [] => categorized
                | _ :: _ => <["Other" := uncategorized]> categorized
                end).
  assert (forall c, final !! c
                    = if decide (c ∈ category_names)
                      then Some (filter (fun p => category_of p = c) sorted)
                      else None) as Hfinal.
  { intros c. destruct (decide (c = "Other")) as [->|Hne].
    - assert ("Other" ∈ category_names) as Hother
        by (apply (bool_decide_unpack _); by vm_compute).
      rewrite decide_True by done.
      rewrite (list_filter_iff _ (fun p => find_category p = None))
        by apply category_of_other.
      rewrite <- Hrest. unfold final.
      destruct uncategorized as [|prog rest]; [|apply lookup_insert_eq].
      rewrite Hmap, decide_True by done.
      f_equal. apply never_filed_under_other.
    - assert (final !! c = categorized !! c) as ->.
      { unfold final. destruct uncategorized; [done|]. by rewrite lookup_insert_ne. }
      rewrite Hmap. destruct (decide (c ∈ category_names)); [|done].
      f_equal. apply list_filter_iff. intros p. symmetry.
      by apply category_of_named. }
  eexists. split; [reflexivity|].
  intros c l. rewrite map_lookup_filter_Some, Hfinal. cbn [snd].
  destruct (decide (c ∈ category_names)); split.
  - intros [[= <-] Hfull]. done.
  - intros (_ & Hfull & ->). done.
  - intros [[=] _].
  - intros [? _]. done.
Qed.

Section ScanFacts.

Variable h : host.

(** An error of the probe of [CDP_PATH] escapes. *)
Lemma scan_cdp_programs_refused (w : world) (msg : string) :
  stat_error h (Path.parse (CDP_PATH h)) (fs w) = Some msg ->
  scan_cdp_programs h w = (inl (OtherException msg), w).
Proof.
  intros Hstat. unfold scan_cdp_programs, Py.bind, Path.exists_.
  cbv beta zeta. by rewrite Hstat.
Qed.

(** The scan when the probe of [CDP_PATH] is answered: either it goes
    through and the result is the listing, or it does not and the result is
    one of the two error reports.  The host is never changed. *)
Lemma scan_cdp_programs_outcome (w : world) :
  stat_error h (Path.parse (CDP_PATH h)) (fs w) = None ->
  (scan_completes h (fs w)
   /\ exists m : gmap string (list string),
        scan_cdp_programs h w = (inr m, w)
        /\ forall c l,
             m !! c = Some l
             <-> c ∈ category_names
                 /\ l <> []
                 /\ l = filter (fun p => category_of p = c)
                          (merge_sort String.le (scanned_programs h (fs w))))
  \/ (~ scan_completes h (fs w)
      /\ exists msg : string,
           scan_cdp_programs h w = (inr {[ "error" := [msg] ]}, w)
           /\ (fs w !! Path.parse (CDP_PATH h) = None ->
               msg = "CDP directory not found: " ++ CDP_PATH h)
           /\ (is_Some (fs w !! Path.parse (CDP_PATH h)) ->
               exists str_e, msg = "Failed to scan CDP directory: " ++ str_e)).
Proof.
  intros Hstat. unfold scan_completes.
  unfold scan_cdp_programs, Py.bind, Path.exists_, Py.try_except_all,
    Path.iterdir, Py.ret, Py.raise.
  cbv beta zeta. rewrite Hstat.
  destruct (fs w !! Path.parse (CDP_PATH h)) as [[x data|]|] eqn:Hnode;
    cbv beta iota.
  - right. split; [by intros [? _]|].
    rewrite bool_decide_eq_true_2 by eauto. cbn [negb]. cbv beta iota.
    rewrite Hnode. cbv beta iota.
    eexists. split; [reflexivity|]. split; [done|]. intros _. by eexists.
  - rewrite bool_decide_eq_true_2 by eauto. cbn [negb]. cbv beta iota.
    rewrite Hnode. cbv beta iota.
    destruct (listdir_error h (Path.parse (CDP_PATH h)) (fs w)) as [msg|] eqn:Hlist;
      cbv beta iota.
    { right. split; [by intros (_ & ? & _)|].
      eexists. split; [reflexivity|]. split; [done|]. intros _. by eexists. }
    destruct (scan_loop_total h (Path.children (fs w) (Path.parse (CDP_PATH h))) [] w)
      as [[Hall Hrun] | [Hnot [msg Hrun]]]; rewrite Hrun; cbv beta iota.
    + left. split; [done|]. cbn [app]. fold (scanned_programs h (fs w)).
      destruct (categorized_listing (scanned_programs h (fs w))) as (m & Hm & Hlisting).
      exists m. split; [|done].
      destruct (List.fold_left _ _ _) as [categorized uncategorized].
      by rewrite <- Hm.
    + right. split; [by intros (_ & _ & ?)|].
      eexists. split; [reflexivity|]. split; [done|]. intros _. by eexists.
  - right. split; [by intros [? _]|].
    rewrite bool_decide_eq_false_2 by (by intros [? ?]). cbn [negb]. cbv beta iota.
    eexists. split; [reflexivity|]. split; [done|]. by intros [? ?].
Qed.

(** Whenever the scan returns, the probe of [CDP_PATH] was answered and
    the host is as it was. *)
Lemma scan_cdp_programs_inv (w w' : world) (m : gmap string (list string)) :
  scan_cdp_programs h w = (inr m, w') ->
  w' = w /\ stat_error h (Path.parse (CDP_PATH h)) (fs w) = None.
Proof.
  intros Hscan.
  destruct (stat_error h (Path.parse (CDP_PATH h)) (fs w)) as [msg|] eqn:Hstat.
  { rewrite (scan_cdp_programs_refused w msg Hstat) in Hscan. discriminate Hscan. }
  split; [|done].
  destruct (scan_cdp_programs_outcome w Hstat)
    as [(_ & m0 & Hm0 & _) | (_ & msg & Hm0 & _)];
    rewrite Hm0 in Hscan; by injection Hscan.
Qed.

End ScanFacts.

(** C8.  No mapping that [list_cdp_programs] returns binds a key to the
    empty list: neither in the two error reports nor among the categories.
    A mapping is returned, and the host left as it was, whenever the probe
    of [CDP_PATH] is answered. *)
Theorem list_cdp_programs_no_empty_category (h : host) (w : world) :
  (stat_error h (Path.parse (CDP_PATH h)) (fs w) = None ->
   exists m : gmap string (list string), list_cdp_programs h w = (inr m, w))
  /\ forall (m : gmap string (list string)) (w' : world),
       list_cdp_programs h w = (inr m, w') ->
       forall (category : string) (programs : list string),
         m !! category = Some programs -> programs <> [].
Proof.
  unfold list_cdp_programs. split.
  - intros Hstat.
    destruct (scan_cdp_programs_outcome h w Hstat)
      as [(_ & m & Hm & _) | (_ & msg & Hm & _)]; eauto.
  - intros m w' Hscan category programs Hlisted.
    destruct (scan_cdp_programs_inv h w w' m Hscan) as [-> Hstat].
    destruct (scan_cdp_programs_outcome h w Hstat)
      as [(_ & m0 & Hm0 & Hlisting) | (_ & msg & Hm0 & _)];
      rewrite Hm0 in Hscan; injection Hscan as <-.
    + by apply Hlisting in Hlisted as (_ & Hfull & _).
    + by apply lookup_singleton_Some in Hlisted as [_ <-].
Qed.

Lemma list_cdp_programs_no_empty_category_witness :
  exists m : gmap string (list string),
    list_cdp_programs idle_host studio = (inr m, studio)
    /\ forall (category : string) (programs : list string),
         m !! category = Some programs -> programs <> [].
Proof.
  destruct (proj1 (list_cdp_programs_no_empty_category idle_host studio) eq_refl)
    as [m Hm].
  exists m. split; [exact Hm|].
  exact (proj2 (list_cdp_programs_no_empty_category idle_host studio) m studio Hm).
Defined.

(** ** Further properties of [list_cdp_programs] *)

Lemma category_of_name (prog : string) : category_of prog ∈ category_names.
Proof.
  unfold category_of. destruct (find_category prog) as [c|] eqn:Hfind; cbn.
  - by eapply find_category_name.
  - apply (bool_decide_unpack _). by vm_compute.
Qed.

Lemma elem_of_sorted (progs : list string) (n : string) :
  n ∈ merge_sort String.le progs <-> n ∈ progs.
Proof. by rewrite merge_sort_Permutation. Qed.

(** X20.  When the probe of [CDP_PATH] is answered and the scan goes
    through ([CDP_PATH] is a directory that can be listed, and every path in
    it can be examined), [list_cdp_programs] changes nothing on the host,
    and the names it lists, over all categories, are exactly the installed
    programs: the executable regular files directly inside [CDP_PATH] whose
    names neither start with a dot nor end in [.txt]. *)
Theorem list_cdp_programs_lists_installed (h : host) (w : world) :
  stat_error h (Path.parse (CDP_PATH h)) (fs w) = None ->
  scan_completes h (fs w) ->
  exists m : gmap string (list string),
    list_cdp_programs h w = (inr m, w)
    /\ forall name,
         (exists category programs,
            m !! category = Some programs /\ name ∈ programs)
         <-> is_program h (fs w) name.
Proof.
  intros Hstat Hscan.
  destruct (scan_cdp_programs_outcome h w Hstat)
    as [(_ & m & Hlist & Hm) | (Hnot & _)]; [|done].
  exists m. split; [done|]. intros name.
  rewrite <- scanned_programs_spec. split.
  - intros (c & l & Hl & Hin). apply Hm in Hl as (_ & _ & ->).
    apply list_elem_of_filter in Hin as [_ Hin].
    exact (proj1 (elem_of_sorted _ _) Hin).
  - intros Hin. apply (proj2 (elem_of_sorted _ _)) in Hin.
    exists (category_of name), (filter (fun p => category_of p = category_of name)
                                 (merge_sort String.le (scanned_programs h (fs w)))).
    assert (name ∈ filter (fun p => category_of p = category_of name)
                     (merge_sort String.le (scanned_programs h (fs w)))) as Hlisted
      by (apply list_elem_of_filter; by split).
    split; [|done]. apply Hm. split; [apply category_of_name|]. split; [|done].
    intros Hnil. rewrite Hnil in Hlisted. by apply not_elem_of_nil in Hlisted.
Qed.

Lemma list_cdp_programs_lists_installed_witness :
  exists m : gmap string (list string),
    list_cdp_programs idle_host studio = (inr m, studio)
    /\ forall name,
         (exists category programs,
            m !! category = Some programs /\ name ∈ programs)
         <-> is_program idle_host (fs studio) name.
Proof.
  apply (list_cdp_programs_lists_installed idle_host studio).
  - reflexivity.
  - unfold scan_completes. split; [vm_compute; reflexivity|].
    split; [reflexivity|]. apply Forall_forall. intros file _. reflexivity.
Defined.

(** X21.  When the probe of [CDP_PATH] is answered and the scan goes
    through, every key of the listing is one of the category names, so there
    is no [error] key.  A program listed under a category is named in that
    category's entry of [CDP_CATEGORIES], or the category is ["Other"] and
    no entry names the program; and no program is listed under two
    categories. *)
Theorem list_cdp_programs_placement (h : host) (w : world) :
  stat_error h (Path.parse (CDP_PATH h)) (fs w) = None ->
  scan_completes h (fs w) ->
  exists m : gmap string (list string),
    list_cdp_programs h w = (inr m, w)
    /\ (forall category programs,
          m !! category = Some programs ->
          category ∈ List.map fst CDP_CATEGORIES)
    /\ m !! "error" = None
    /\ (forall category programs name,
          m !! category = Some programs -> name ∈ programs ->
          (exists listed, (category, listed) ∈ CDP_CATEGORIES /\ name ∈ listed)
          \/ (category = "Other"
              /\ forall other listed,
                   (other, listed) ∈ CDP_CATEGORIES -> name ∉ listed))
    /\ (forall category1 programs1 category2 programs2 name,
          m !! category1 = Some programs1 -> name ∈ programs1 ->
          m !! category2 = Some programs2 -> name ∈ programs2 ->
          category1 = category2).
Proof.
  intros Hstat Hscan.
  destruct (scan_cdp_programs_outcome h w Hstat)
    as [(_ & m & Hlist & Hm) | (Hnot & _)]; [|done].
  exists m. split; [done|].
  assert (forall c l name, m !! c = Some l -> name ∈ l -> category_of name = c)
    as Hplace.
  { intros c l name Hl Hin. apply Hm in Hl as (_ & _ & ->).
    by apply list_elem_of_filter in Hin as [Hc _]. }
  split; [|split; [|split]].
  - intros c l Hl. by apply Hm in Hl as [Hc _].
  - destruct (m !! "error") as [l|] eqn:Hl; [|done].
    apply Hm in Hl as [Hc _]. by apply error_is_no_category in Hc.
  - intros c l name Hl Hin. pose proof (Hplace _ _ _ Hl Hin) as <-.
    unfold category_of. destruct (find_category name) as [c|] eqn:Hfind; cbn.
    + left. by apply find_category_Some in Hfind as [_ ?].
    + right. split; [done|]. by apply find_category_None.
  - intros c1 l1 c2 l2 name Hl1 Hin1 Hl2 Hin2.
    by rewrite <- (Hplace _ _ _ Hl1 Hin1), <- (Hplace _ _ _ Hl2 Hin2).
Qed.

Lemma list_cdp_programs_placement_witness :
  exists m : gmap string (list string),
    list_cdp_programs idle_host studio = (inr m, studio)
    /\ (forall category programs,
          m !! category = Some programs ->
          category ∈ List.map fst CDP_CATEGORIES)
    /\ m !! "error" = None
    /\ (forall category programs name,
          m !! category = Some programs -> name ∈ programs ->
          (exists listed, (category, listed) ∈ CDP_CATEGORIES /\ name ∈ listed)
          \/ (category = "Other"
              /\ forall other listed,
                   (other, listed) ∈ CDP_CATEGORIES -> name ∉ listed))
    /\ (forall category1 programs1 category2 programs2 name,
          m !! category1 = Some programs1 -> name ∈ programs1 ->
          m !! category2 = Some programs2 -> name ∈ programs2 ->
          category1 = category2).
Proof.
  apply (list_cdp_programs_placement idle_host studio).
  - reflexivity.
  - unfold scan_completes. split; [vm_compute; reflexivity|].
    split; [reflexivity|]. apply Forall_forall. intros file _. reflexivity.
Defined.

(** X22.  Whenever [list_cdp_programs] returns, it has not changed the
    host, and its result has an [error] key exactly when the scan did not go
    through: [CDP_PATH] is not a directory, or it may not be listed, or a
    path in it cannot be examined.  The result is then that key alone, bound
    to a one-element list; when nothing exists at [CDP_PATH] the element is
    the not-found message, and otherwise it starts with
    ["Failed to scan CDP directory: "]. *)
Theorem list_cdp_programs_error_key (h : host) (w w' : world)
    (m : gmap string (list string)) :
  list_cdp_programs h w = (inr m, w') ->
  w' = w
  /\ (is_Some (m !! "error") <-> ~ scan_completes h (fs w))
  /\ (is_Some (m !! "error") -> exists msg, m = {[ "error" := [msg] ]})
  /\ (fs w !! Path.parse (CDP_PATH h) = None ->
      m = {[ "error" := ["CDP directory not found: " ++ CDP_PATH h] ]})
  /\ (is_Some (fs w !! Path.parse (CDP_PATH h)) ->
      forall msg, m !! "error" = Some [msg] ->
      exists str_e, msg = "Failed to scan CDP directory: " ++ str_e).
Proof.
  unfold list_cdp_programs. intros Hscan.
  destruct (scan_cdp_programs_inv h w w' m Hscan) as [-> Hstat].
  split; [done|].
  destruct (scan_cdp_programs_outcome h w Hstat)
    as [(Hgoes & m0 & Hm0 & Hlisting) | (Hnot & msg & Hm0 & Hmissing & Hfailed)];
    rewrite Hm0 in Hscan; injection Hscan as <-.
  - assert (m0 !! "error" = None) as Hnone.
    { destruct (m0 !! "error") as [l|] eqn:Hl; [|done].
      apply Hlisting in Hl as [Hc _]. by apply error_is_no_category in Hc. }
    rewrite Hnone. repeat split.
    + by intros [? ?].
    + done.
    + by intros [? ?].
    + intros Hnothing. destruct Hgoes as [Hdir _]. congruence.
    + done.
  - rewrite lookup_singleton_eq. repeat split; eauto.
    + intros Hnothing. by rewrite Hmissing.
    + intros Hsome msg' [= <-]. by apply Hfailed.
Qed.

Lemma list_cdp_programs_error_key_witness :
  fs studio !! Path.parse (CDP_PATH locked_host) = Some Directory
  /\ list_cdp_programs locked_host studio
     = (inr {[ "error" := ["Failed to scan CDP directory: "
                           ++ "[Errno 13] Permission denied: '/opt/cdp'"] ]},
        studio)
  /\ (is_Some (({[ "error" := ["Failed to scan CDP directory: "
                               ++ "[Errno 13] Permission denied: '/opt/cdp'"] ]}
                : gmap string (list string)) !! "error")
      <-> ~ scan_completes locked_host (fs studio)).
Proof.
  split; [vm_compute; reflexivity|]. split; [reflexivity|].
  apply (list_cdp_programs_error_key locked_host studio studio).
  reflexivity.
Defined.

Lemma StronglySorted_filter {A} (R : relation A) (P : A -> Prop)
    `{!forall x, Decision (P x)} (l : list A) :
  StronglySorted R l -> StronglySorted R (filter P l).
Proof.
  induction 1 as [|x l Hsorted IH Hall]; [constructor|].
  rewrite filter_cons. destruct (decide (P x)); [|done].
  constructor; [done|]. apply Forall_forall. intros y [_ Hy]%list_elem_of_filter.
  rewrite Forall_forall in Hall. by apply Hall.
Qed.

Lemma StronglySorted_weaken {A} (R R' : relation A) (l : list A) :
  (forall x y, R x y -> R' x y) -> StronglySorted R l -> StronglySorted R' l.
Proof.
  intros Himpl. induction 1 as [|x l Hsorted IH Hall]; constructor; [done|].
  eapply Forall_impl; [exact Hall | auto].
Qed.

(** X23.  When [CDP_PATH] is a directory and the probe of it is answered,
    every list of the listing is in ascending order of its names and holds
    no name twice. *)
Theorem list_cdp_programs_sorted (h : host) (w : world) :
  stat_error h (Path.parse (CDP_PATH h)) (fs w) = None ->
  fs w !! Path.parse (CDP_PATH h) = Some Directory ->
  exists m : gmap string (list string),
    list_cdp_programs h w = (inr m, w)
    /\ forall category programs,
         m !! category = Some programs ->
         StronglySorted (fun a b => String.leb a b = true) programs
         /\ NoDup programs.
Proof.
  intros Hstat Hdir.
  destruct (scan_cdp_programs_outcome h w Hstat)
    as [(_ & m & Hscan & Hm) | (_ & msg & Hscan & _)].
  - exists m. split; [done|]. intros c l Hl. apply Hm in Hl as (_ & _ & ->). split.
    + apply StronglySorted_filter.
      apply (StronglySorted_weaken String.le).
      * intros a b Hle. by apply Is_true_true.
      * apply StronglySorted_merge_sort; apply _.
    + apply NoDup_filter. rewrite merge_sort_Permutation.
      apply scanned_programs_NoDup.
  - eexists. split; [exact Hscan|].
    intros c l [_ <-]%lookup_singleton_Some. split.
    + repeat constructor.
    + apply NoDup_singleton.
Qed.

Lemma list_cdp_programs_sorted_witness :
  exists m : gmap string (list string),
    list_cdp_programs idle_host studio = (inr m, studio)
    /\ forall category programs,
         m !! category = Some programs ->
         StronglySorted (fun a b => String.leb a b = true) programs
         /\ NoDup programs.
Proof.
  apply (list_cdp_programs_sorted idle_host studio).
  - reflexivity.
  - vm_compute. reflexivity.
Defined.

(** ** [run_cdp_for_usage] and [get_cdp_usage] *)

Section UsageFacts.

Variable h : host.

Lemma run_cdp_for_usage_absent (program : string) (subprogram : option string)
    (w : world) :
  stat_error h (program_path h program) (fs w) = None ->
  fs w !! program_path h program = None ->
  run_cdp_for_usage h program subprogram w
  = (inr (-1, "", not_found_message program (Path.str (program_path h program))), w).
Proof.
  intros Hstat Hnone.
  unfold run_cdp_for_usage, Py.bind, Path.exists_. cbv beta zeta.
  fold (program_path h program).
  rewrite Hstat, Hnone, bool_decide_eq_false_2; [done|]. by intros [? ?].
Qed.

Lemma run_cdp_for_usage_present (program : string) (subprogram : option string)
    (w : world) :
  stat_error h (program_path h program) (fs w) = None ->
  is_Some (fs w !! program_path h program) ->
  run_cdp_for_usage h program subprogram w
  = (inr (usage_triple_of
            (fst (subprocess_run h (usage_call h program subprogram) (fs w)))),
     after_usage h program subprogram w).
Proof.
  intros Hstat Hsome.
  unfold run_cdp_for_usage, Py.bind, Path.exists_, Py.try_except,
    Subprocess.run, Py.ret.
  cbv beta zeta. fold (program_path h program).
  rewrite Hstat, bool_decide_eq_true_2 by done. cbn [negb].
  unfold after_usage. fold (usage_call h program subprogram).
  by destruct (subprocess_run h _ _) as [[[msg|msg]|done_] files].
Qed.

Lemma run_cdp_for_usage_inv (program : string) (subprogram : option string)
    (w w' : world) (t : Z * string * string) :
  run_cdp_for_usage h program subprogram w = (inr t, w') ->
  stat_error h (program_path h program) (fs w) = None
  /\ ((fs w !! program_path h program = None
       /\ t = (-1, "", not_found_message program (Path.str (program_path h program)))
       /\ w' = w)
      \/ (is_Some (fs w !! program_path h program)
          /\ t = usage_triple_of
                   (fst (subprocess_run h (usage_call h program subprogram) (fs w)))
          /\ w' = after_usage h program subprogram w)).
Proof.
  intros Hrun.
  destruct (stat_error h (program_path h program) (fs w)) as [msg|] eqn:Hstat.
  { revert Hrun. unfold run_cdp_for_usage, Py.bind, Path.exists_. cbv beta zeta.
    fold (program_path h program). rewrite Hstat. discriminate. }
  split; [done|].
  destruct (fs w !! program_path h program) as [node|] eqn:Hlook.
  - right. rewrite run_cdp_for_usage_present in Hrun by (by rewrite ?Hlook).
    injection Hrun as <- <-. by repeat split; [eexists|..].
  - left. rewrite run_cdp_for_usage_absent in Hrun by done.
    by injection Hrun as <- <-.
Qed.

End UsageFacts.

(** The timeout triple comes from a timeout only. *)
Lemma usage_triple_timeout (outcome : pyexn + CompletedProcess) :
  usage_triple_of outcome = (-1, "", timeout_message)
  <-> exists str_e, outcome = inl (TimeoutExpired str_e).
Proof.
  destruct outcome as [[msg|msg]|done_]; cbn [usage_triple_of].
  - split; [by exists msg | done].
  - split; [discriminate | by intros [str_e [=]]].
  - split; [|by intros [str_e [=]]].
    intros [= _ Hout Herr]. destruct (stdout done_); [|discriminate].
    cbn [PyStr.truthy] in Hout. rewrite Hout in Herr. discriminate.
Qed.

Lemma has_usage_marker (text : string) :
  PyStr.contains "USAGE:" text || PyStr.contains "Usage:" text = true
  <-> PyStr.substring_of "USAGE:" text \/ PyStr.substring_of "Usage:" text.
Proof. by rewrite orb_true_iff, !contains_substring_of. Qed.

Lemma has_flags_marker (text : string) :
  existsb (fun flag => PyStr.contains flag text) ["-"; "FLAGS:"; "Options:"] = true
  <-> PyStr.substring_of "-" text
      \/ PyStr.substring_of "FLAGS:" text
      \/ PyStr.substring_of "Options:" text.
Proof.
  cbn [existsb]. rewrite !orb_true_iff, !contains_substring_of.
  intuition discriminate.
Qed.

Lemma has_modes_marker (text : string) :
  PyStr.contains "MODES:" text || PyStr.contains "Modes:" text = true
  <-> PyStr.substring_of "MODES:" text \/ PyStr.substring_of "Modes:" text.
Proof. by rewrite orb_true_iff, !contains_substring_of. Qed.

Lemma contains_in_empty (sub : string) :
  sub <> "" -> PyStr.contains sub "" = false.
Proof. intros Hsub. by destruct sub. Qed.

Lemma doubled_name_nonempty (program : string) : program ++ " " ++ program <> "".
Proof. by destruct program. Qed.

(** The response of [get_cdp_usage], read field by field against the
    triple of the probe. *)
Lemma get_cdp_usage_fields (h : host) (program : string)
    (subprogram : option string) (w w1 : world)
    (exit_code : Z) (output err : string) :
  run_cdp_for_usage h program subprogram w = (inr (exit_code, output, err), w1) ->
  exists r : gmap string pyval,
    get_cdp_usage h program subprogram w = (inr r, w1)
    /\ r !! "program" = Some (VStr program)
    /\ r !! "subprogram" = Some (VStr (or_none subprogram))
    /\ r !! "usage_text" = Some (VStr (if PyStr.truthy output then output else err))
    /\ r !! "exit_code" = Some (VInt exit_code)
    /\ r !! "has_usage"
       = (if PyStr.contains "USAGE:" (if PyStr.truthy output then output else err)
             || PyStr.contains "Usage:" (if PyStr.truthy output then output else err)
          then Some (VBool true) else None)
    /\ r !! "has_modes"
       = (if PyStr.contains "MODES:" (if PyStr.truthy output then output else err)
             || PyStr.contains "Modes:" (if PyStr.truthy output then output else err)
          then Some (VBool true) else None)
    /\ r !! "has_flags"
       = (if existsb (fun flag =>
                        PyStr.contains flag (if PyStr.truthy output then output else err))
               ["-"; "FLAGS:"; "Options:"]
          then Some (VBool true) else None)
    /\ r !! "note"
       = (if PyStr.contains (program ++ " " ++ program)
               (PyStr.lower (if PyStr.truthy output then output else err))
          then Some (VStr ("This program uses double syntax: "
                           ++ program ++ " " ++ program))
          else None)
    /\ (output = "" -> err = "" ->
        dom r = {[ "program"; "subprogram"; "usage_text"; "exit_code" ]}).
Proof.
  intros Hrun. unfold get_cdp_usage, Py.bind. rewrite Hrun. unfold Py.ret.
  destruct (PyStr.truthy output || PyStr.truthy err) eqn:Hany.
  - destruct (PyStr.contains "USAGE:" _ || PyStr.contains "Usage:" _),
      (PyStr.contains "MODES:" _ || PyStr.contains "Modes:" _),
      (existsb _ _), (PyStr.contains (program ++ _) _);
      eexists; (split; [reflexivity|]); repeat split; try reflexivity;
      intros -> ->; discriminate Hany.
  - apply orb_false_iff in Hany as [Hout%truthy_empty Herr%truthy_empty].
    subst output err. cbn [PyStr.truthy PyStr.lower].
    rewrite (contains_in_empty _ (doubled_name_nonempty program)).
    eexists. split; [reflexivity|]. repeat split; reflexivity.
Qed.

(** Whenever [get_cdp_usage] returns, the probe returned, and in the same
    host state. *)
Lemma get_cdp_usage_ran (h : host) (program : string)
    (subprogram : option string) (w w' : world) (r : gmap string pyval) :
  get_cdp_usage h program subprogram w = (inr r, w') ->
  exists exit_code output err,
    run_cdp_for_usage h program subprogram w = (inr (exit_code, output, err), w').
Proof.
  intros Hget.
  destruct (run_cdp_for_usage h program subprogram w)
    as [[e|[[exit_code output] err]] w1] eqn:Hrun.
  { revert Hget. unfold get_cdp_usage, Py.bind. rewrite Hrun. discriminate. }
  destruct (get_cdp_usage_fields h program subprogram w w1 _ _ _ Hrun)
    as (r0 & Hget0 & _).
  rewrite Hget0 in Hget. injection Hget as _ <-.
  by exists exit_code, output, err.
Qed.

(** C6.  When a path exists at [Path(CDP_PATH) / program] and the probe of
    it is answered, [run_cdp_for_usage] returns after spawning exactly one
    process: that program, under its path as [pathlib] prints it (behind
    [arch -x86_64] on Apple silicon), with the sub-program as its only
    argument if one is given, and with [timeout=5].  Whenever
    [run_cdp_for_usage] returns, it has spawned at most one process, with
    [timeout=5], and the triple [(-1, "", timeout_message)] is returned
    exactly when that process was spawned and [subprocess.run] raised
    [TimeoutExpired]: a process that completes, with whatever exit code and
    output, a missing program and any other exception all give a different
    triple. *)
Theorem run_cdp_for_usage_timeout (h : host) (program : string)
    (subprogram : option string) (w : world) :
  (is_Some (fs w !! program_path h program) ->
   stat_error h (program_path h program) (fs w) = None ->
   exists (t : Z * string * string) (w' : world),
     run_cdp_for_usage h program subprogram w = (inr t, w')
     /\ spawned w'
        = (spawned w
           ++ [ {| argv := arch_prefix h (Path.str (program_path h program))
                             (usage_args subprogram);
                   cwd := None;
                   timeout := Some 5 |} ])%list
     /\ (t = (-1, "", timeout_message)
         <-> exists str_e,
               fst (subprocess_run h (usage_call h program subprogram) (fs w))
               = inl (TimeoutExpired str_e)))
  /\ forall (t : Z * string * string) (w' : world),
       run_cdp_for_usage h program subprogram w = (inr t, w') ->
       (exists calls : list spawn_call,
          spawned w' = (spawned w ++ calls)%list
          /\ (List.length calls <= 1)%nat
          /\ Forall (fun call => timeout call = Some 5) calls)
       /\ (t = (-1, "", timeout_message)
           <-> is_Some (fs w !! program_path h program)
               /\ exists str_e,
                    fst (subprocess_run h (usage_call h program subprogram) (fs w))
                    = inl (TimeoutExpired str_e)).
Proof.
  split.
  - intros Hthere Hstat. eexists _, _.
    split; [by apply run_cdp_for_usage_present|].
    split; [reflexivity|]. apply usage_triple_timeout.
  - intros t w' Hrun.
    apply run_cdp_for_usage_inv in Hrun
      as [_ [(Hnone & -> & ->) | (Hsome & -> & ->)]].
    + split.
      * exists []. rewrite app_nil_r. repeat split; [cbn; lia | constructor].
      * split; [discriminate|]. intros [[node Hnode] _]. congruence.
    + split.
      * exists [usage_call h program subprogram].
        repeat split; [cbn; lia | by repeat constructor].
      * rewrite usage_triple_timeout. tauto.
Qed.

Lemma run_cdp_for_usage_timeout_witness :
  exists (t : Z * string * string) (w' : world),
    run_cdp_for_usage (scripted_host (inl (TimeoutExpired "timed out after 5 seconds")))
      "blur" (Some "blur") studio
    = (inr t, w')
    /\ spawned w'
       = (spawned studio
          ++ [ {| argv := arch_prefix
                            (scripted_host (inl (TimeoutExpired "timed out after 5 seconds")))
                            (Path.str
                               (program_path
                                  (scripted_host
                                     (inl (TimeoutExpired "timed out after 5 seconds")))
                                  "blur"))
                            (usage_args (Some "blur"));
                  cwd := None;
                  timeout := Some 5 |} ])%list
    /\ (t = (-1, "", timeout_message)
        <-> exists str_e,
              fst (subprocess_run
                     (scripted_host (inl (TimeoutExpired "timed out after 5 seconds")))
                     (usage_call
                        (scripted_host (inl (TimeoutExpired "timed out after 5 seconds")))
                        "blur" (Some "blur"))
                     (fs studio))
              = inl (TimeoutExpired str_e)).
Proof.
  apply (proj1 (run_cdp_for_usage_timeout
                  (scripted_host (inl (TimeoutExpired "timed out after 5 seconds")))
                  "blur" (Some "blur") studio)).
  - vm_compute. eauto.
  - reflexivity.
Defined.

(** C7.  Let the probe of [get_cdp_usage] return, and let [text] be what
    it captured: the output if that is not empty, and stderr otherwise.
    Then [get_cdp_usage] returns a response whose usage text is [text]; the
    response binds [has_usage] to [True] when [text] contains ["USAGE:"] or
    ["Usage:"], and has no [has_usage] key when it contains neither. *)
Theorem get_cdp_usage_has_usage (h : host) (program : string)
    (subprogram : option string) (w w1 : world)
    (exit_code : Z) (output err : string) :
  run_cdp_for_usage h program subprogram w = (inr (exit_code, output, err), w1) ->
  exists r : gmap string pyval,
    get_cdp_usage h program subprogram w = (inr r, w1)
    /\ r !! "usage_text" = Some (VStr (if PyStr.truthy output then output else err))
    /\ (PyStr.substring_of "USAGE:" (if PyStr.truthy output then output else err)
        \/ PyStr.substring_of "Usage:" (if PyStr.truthy output then output else err) ->
        r !! "has_usage" = Some (VBool true))
    /\ (~ (PyStr.substring_of "USAGE:" (if PyStr.truthy output then output else err)
           \/ PyStr.substring_of "Usage:" (if PyStr.truthy output then output else err)) ->
        r !! "has_usage" = None).
Proof.
  intros Hrun.
  destruct (get_cdp_usage_fields h program subprogram w w1 _ _ _ Hrun)
    as (r & Hget & _ & _ & Htext & _ & Husage & _).
  exists r. split; [done|]. split; [done|]. rewrite Husage.
  pose proof (has_usage_marker (if PyStr.truthy output then output else err))
    as Hmarker.
  destruct (PyStr.contains "USAGE:" _ || PyStr.contains "Usage:" _).
  - split; [done|]. intros Hno. exfalso. by apply Hno, Hmarker.
  - split; [|done]. intros Hyes. apply Hmarker in Hyes. discriminate Hyes.
Qed.

Lemma get_cdp_usage_has_usage_witness :
  exists r : gmap string pyval,
    get_cdp_usage (completes 255 "" "USAGE: blur blur infile outfile blurring")
      "blur" None studio
    = (inr r,
       after_usage (completes 255 "" "USAGE: blur blur infile outfile blurring")
         "blur" None studio)
    /\ r !! "usage_text"
       = Some (VStr (if PyStr.truthy "USAGE: blur blur infile outfile blurring"
                     then "USAGE: blur blur infile outfile blurring"
                     else "USAGE: blur blur infile outfile blurring"))
    /\ (PyStr.substring_of "USAGE:"
          (if PyStr.truthy "USAGE: blur blur infile outfile blurring"
           then "USAGE: blur blur infile outfile blurring"
           else "USAGE: blur blur infile outfile blurring")
        \/ PyStr.substring_of "Usage:"
             (if PyStr.truthy "USAGE: blur blur infile outfile blurring"
              then "USAGE: blur blur infile outfile blurring"
              else "USAGE: blur blur infile outfile blurring") ->
        r !! "has_usage" = Some (VBool true))
    /\ (~ (PyStr.substring_of "USAGE:"
             (if PyStr.truthy "USAGE: blur blur infile outfile blurring"
              then "USAGE: blur blur infile outfile blurring"
              else "USAGE: blur blur infile outfile blurring")
           \/ PyStr.substring_of "Usage:"
                (if PyStr.truthy "USAGE: blur blur infile outfile blurring"
                 then "USAGE: blur blur infile outfile blurring"
                 else "USAGE: blur blur infile outfile blurring")) ->
        r !! "has_usage" = None).
Proof.
  apply (get_cdp_usage_has_usage
           (completes 255 "" "USAGE: blur blur infile outfile blurring")
           "blur" None studio
           (after_usage (completes 255 "" "USAGE: blur blur infile outfile blurring")
              "blur" None studio)
           255 "USAGE: blur blur infile outfile blurring"
           "USAGE: blur blur infile outfile blurring").
  reflexivity.
Defined.

(** ** Further properties of [get_cdp_usage] *)

(** X6.  In every response that [get_cdp_usage] returns, with [text] its
    usage text: [has_modes] is [True] exactly when [text] contains
    ["MODES:"] or ["Modes:"]; [has_flags] is [True] exactly when [text]
    contains a dash, ["FLAGS:"] or ["Options:"]; and [note] is present
    exactly when the lower-cased text contains the program name twice,
    separated by one space.  None of the three keys ever holds another
    value. *)
Theorem get_cdp_usage_hints (h : host) (program : string)
    (subprogram : option string) (w w' : world) (r : gmap string pyval) :
  get_cdp_usage h program subprogram w = (inr r, w') ->
  exists text : string,
    r !! "usage_text" = Some (VStr text)
    /\ r !! "has_modes"
       = (if PyStr.contains "MODES:" text || PyStr.contains "Modes:" text
          then Some (VBool true) else None)
    /\ (PyStr.contains "MODES:" text || PyStr.contains "Modes:" text = true
        <-> PyStr.substring_of "MODES:" text \/ PyStr.substring_of "Modes:" text)
    /\ r !! "has_flags"
       = (if existsb (fun flag => PyStr.contains flag text) ["-"; "FLAGS:"; "Options:"]
          then Some (VBool true) else None)
    /\ (existsb (fun flag => PyStr.contains flag text) ["-"; "FLAGS:"; "Options:"] = true
        <-> PyStr.substring_of "-" text
            \/ PyStr.substring_of "FLAGS:" text
            \/ PyStr.substring_of "Options:" text)
    /\ r !! "note"
       = (if PyStr.contains (program ++ " " ++ program) (PyStr.lower text)
          then Some (VStr ("This program uses double syntax: "
                           ++ program ++ " " ++ program))
          else None)
    /\ (PyStr.contains (program ++ " " ++ program) (PyStr.lower text) = true
        <-> PyStr.substring_of (program ++ " " ++ program) (PyStr.lower text)).
Proof.
  intros Hget.
  destruct (get_cdp_usage_ran h program subprogram w w' r Hget)
    as (exit_code & output & err & Hrun).
  destruct (get_cdp_usage_fields h program subprogram w w' _ _ _ Hrun)
    as (r0 & Hget0 & _ & _ & Htext & _ & _ & Hmodes & Hflags & Hnote & _).
  rewrite Hget0 in Hget. injection Hget as ->.
  exists (if PyStr.truthy output then output else err).
  split; [done|]. split; [done|]. split; [apply has_modes_marker|].
  split; [done|]. split; [apply has_flags_marker|].
  split; [done|]. apply contains_substring_of.
Qed.

Lemma get_cdp_usage_hints_witness :
  exists text : string,
    (<["note" := VStr "This program uses double syntax: blur blur"]>
       (<["has_flags" := VBool true]>
          (<["has_modes" := VBool true]>
             {[ "program" := VStr "blur";
                "subprogram" := VStr "none";
                "usage_text" := VStr "blur blur infile -b MODES: 1";
                "exit_code" := VInt 255 ]})) : gmap string pyval)
    !! "usage_text" = Some (VStr text)
    /\ (<["note" := VStr "This program uses double syntax: blur blur"]>
          (<["has_flags" := VBool true]>
             (<["has_modes" := VBool true]>
                {[ "program" := VStr "blur";
                   "subprogram" := VStr "none";
                   "usage_text" := VStr "blur blur infile -b MODES: 1";
                   "exit_code" := VInt 255 ]})) : gmap string pyval)
       !! "has_modes"
       = (if PyStr.contains "MODES:" text || PyStr.contains "Modes:" text
          then Some (VBool true) else None)
    /\ (PyStr.contains "MODES:" text || PyStr.contains "Modes:" text = true
        <-> PyStr.substring_of "MODES:" text \/ PyStr.substring_of "Modes:" text)
    /\ (<["note" := VStr "This program uses double syntax: blur blur"]>
          (<["has_flags" := VBool true]>
             (<["has_modes" := VBool true]>
                {[ "program" := VStr "blur";
                   "subprogram" := VStr "none";
                   "usage_text" := VStr "blur blur infile -b MODES: 1";
                   "exit_code" := VInt 255 ]})) : gmap string pyval)
       !! "has_flags"
       = (if existsb (fun flag => PyStr.contains flag text) ["-"; "FLAGS:"; "Options:"]
          then Some (VBool true) else None)
    /\ (existsb (fun flag => PyStr.contains flag text) ["-"; "FLAGS:"; "Options:"] = true
        <-> PyStr.substring_of "-" text
            \/ PyStr.substring_of "FLAGS:" text
            \/ PyStr.substring_of "Options:" text)
    /\ (<["note" := VStr "This program uses double syntax: blur blur"]>
          (<["has_flags" := VBool true]>
             (<["has_modes" := VBool true]>
                {[ "program" := VStr "blur";
                   "subprogram" := VStr "none";
                   "usage_text" := VStr "blur blur infile -b MODES: 1";
                   "exit_code" := VInt 255 ]})) : gmap string pyval)
       !! "note"
       = (if PyStr.contains ("blur" ++ " " ++ "blur") (PyStr.lower text)
          then Some (VStr ("This program uses double syntax: "
                           ++ "blur" ++ " " ++ "blur"))
          else None)
    /\ (PyStr.contains ("blur" ++ " " ++ "blur") (PyStr.lower text) = true
        <-> PyStr.substring_of ("blur" ++ " " ++ "blur") (PyStr.lower text)).
Proof.
  apply (get_cdp_usage_hints (completes 255 "blur blur infile -b MODES: 1" "")
           "blur" None studio
           (after_usage (completes 255 "blur blur infile -b MODES: 1" "")
              "blur" None studio)).
  reflexivity.
Defined.

Lemma lower_char_not_upper (c : ascii) :
  ((65 <=? N_of_ascii (PyStr.lower_char c)) && (N_of_ascii (PyStr.lower_char c) <=? 90))%N
  = false.
Proof. destruct c as [[] [] [] [] [] [] [] []]; reflexivity. Qed.

Lemma chars_of_append (s t : string) :
  list_ascii_of_string (s ++ t)
  = (list_ascii_of_string s ++ list_ascii_of_string t)%list.
Proof. induction s as [|c s IH]; [done|]. cbn. by rewrite <- IH. Qed.

Lemma chars_of_lower (s : string) :
  list_ascii_of_string (PyStr.lower s)
  = List.map PyStr.lower_char (list_ascii_of_string s).
Proof. induction s as [|c s IH]; [done|]. cbn. by rewrite IH. Qed.

(** X7.  When the program name contains an upper-case ASCII letter, no
    response that [get_cdp_usage] returns carries a [note]: the name is
    searched as it is in the lower-cased text, where no such letter
    occurs. *)
Theorem get_cdp_usage_upper_case_no_note (h : host) (program : string)
    (subprogram : option string) (w w' : world) (r : gmap string pyval)
    (c : ascii) :
  c ∈ list_ascii_of_string program ->
  (65 <= N_of_ascii c <= 90)%N ->
  get_cdp_usage h program subprogram w = (inr r, w') ->
  r !! "note" = None.
Proof.
  intros Hin Hupper Hget.
  destruct (get_cdp_usage_ran h program subprogram w w' r Hget)
    as (exit_code & output & err & Hrun).
  destruct (get_cdp_usage_fields h program subprogram w w' _ _ _ Hrun)
    as (r0 & Hget0 & _ & _ & _ & _ & _ & _ & _ & Hnote & _).
  rewrite Hget0 in Hget. injection Hget as ->. rewrite Hnote.
  destruct (PyStr.contains _ _) eqn:Hsub; [|done]. exfalso.
  apply contains_substring_of in Hsub as (pre & post & Hlower).
  assert (c ∈ list_ascii_of_string
                (PyStr.lower (if PyStr.truthy output then output else err))) as Hc.
  { rewrite Hlower, !chars_of_append, !elem_of_app. auto. }
  rewrite chars_of_lower in Hc.
  apply list_elem_of_fmap in Hc as (c' & -> & _).
  pose proof (lower_char_not_upper c') as Hnot.
  apply andb_false_iff in Hnot as [Hnot | Hnot];
    [apply N.leb_gt in Hnot | apply N.leb_gt in Hnot]; lia.
Qed.

Lemma get_cdp_usage_upper_case_no_note_witness :
  is_Some (fs workshop !! program_path (completes 255 "USAGE: Blur Blur infile" "") "Blur")
  /\ get_cdp_usage (completes 255 "USAGE: Blur Blur infile" "") "Blur" None workshop
     = (inr (<["has_usage" := VBool true]>
               {[ "program" := VStr "Blur";
                  "subprogram" := VStr "none";
                  "usage_text" := VStr "USAGE: Blur Blur infile";
                  "exit_code" := VInt 255 ]}),
        after_usage (completes 255 "USAGE: Blur Blur infile" "") "Blur" None workshop)
  /\ (<["has_usage" := VBool true]>
        {[ "program" := VStr "Blur";
           "subprogram" := VStr "none";
           "usage_text" := VStr "USAGE: Blur Blur infile";
           "exit_code" := VInt 255 ]} : gmap string pyval) !! "note" = None.
Proof.
  split; [vm_compute; eauto|]. split; [reflexivity|].
  apply (get_cdp_usage_upper_case_no_note
           (completes 255 "USAGE: Blur Blur infile" "") "Blur" None workshop
           (after_usage (completes 255 "USAGE: Blur Blur infile" "") "Blur" None workshop)
           _ "B").
  - vm_compute. set_solver.
  - vm_compute. split; discriminate.
  - reflexivity.
Defined.



(** X9.  When the probe times out, the response of [get_cdp_usage] has
    exit code -1 and the timeout message as its usage text; because that
    message contains a dash, [has_flags] is [True], while [has_usage] and
    [has_modes] are absent. *)
Theorem get_cdp_usage_timeout (h : host) (program : string)
    (subprogram : option string) (w : world) (str_e : string)
    (files : gmap path inode) :
  stat_error h (program_path h program) (fs w) = None ->
  is_Some (fs w !! program_path h program) ->
  subprocess_run h
    {| argv := arch_prefix h (Path.str (program_path h program)) (usage_args subprogram);
       cwd := None;
       timeout := Some 5 |} (fs w)
  = (inl (TimeoutExpired str_e), files) ->
  exists (r : gmap string pyval) (w' : world),
    get_cdp_usage h program subprogram w = (inr r, w')
    /\ r !! "exit_code" = Some (VInt (-1))
    /\ r !! "usage_text" = Some (VStr timeout_message)
    /\ r !! "has_flags" = Some (VBool true)
    /\ r !! "has_usage" = None
    /\ r !! "has_modes" = None.
Proof.
  intros Hstat Hthere Hproc.
  pose proof (run_cdp_for_usage_present h program subprogram w Hstat Hthere) as Hrun.
  unfold usage_call in Hrun at 1. rewrite Hproc in Hrun.
  cbn [fst usage_triple_of] in Hrun.
  destruct (get_cdp_usage_fields h program subprogram w _ _ _ _ Hrun)
    as (r & Hget & _ & _ & Htext & Hcode & Husage & Hmodes & Hflags & _).
  by exists r, (after_usage h program subprogram w).
Qed.

Lemma get_cdp_usage_timeout_witness :
  exists (r : gmap string pyval) (w' : world),
    get_cdp_usage (scripted_host (inl (TimeoutExpired "timed out after 5 seconds")))
      "blur" (Some "blur") studio
    = (inr r, w')
    /\ r !! "exit_code" = Some (VInt (-1))
    /\ r !! "usage_text" = Some (VStr timeout_message)
    /\ r !! "has_flags" = Some (VBool true)
    /\ r !! "has_usage" = None
    /\ r !! "has_modes" = None.
Proof.
  apply (get_cdp_usage_timeout
           (scripted_host (inl (TimeoutExpired "timed out after 5 seconds")))
           "blur" (Some "blur") studio "timed out after 5 seconds" studio_fs).
  - reflexivity.
  - vm_compute. eauto.
  - reflexivity.
Defined.

(** X10.  When the probed program completes, the usage text is its stdout
    if that is not empty and its stderr otherwise, and the exit code is the
    one of the process; a program that prints nothing on either stream
    yields an empty usage text and a response with exactly the four keys
    [program], [subprogram], [usage_text] and [exit_code]. *)
Theorem get_cdp_usage_completed (h : host) (program : string)
    (subprogram : option string) (w : world) (done_ : CompletedProcess)
    (files : gmap path inode) :
  stat_error h (program_path h program) (fs w) = None ->
  is_Some (fs w !! program_path h program) ->
  subprocess_run h
    {| argv := arch_prefix h (Path.str (program_path h program)) (usage_args subprogram);
       cwd := None;
       timeout := Some 5 |} (fs w)
  = (inr done_, files) ->
  exists (r : gmap string pyval) (w' : world),
    get_cdp_usage h program subprogram w = (inr r, w')
    /\ r !! "exit_code" = Some (VInt (returncode done_))
    /\ (stdout done_ <> "" -> r !! "usage_text" = Some (VStr (stdout done_)))
    /\ (stdout done_ = "" -> r !! "usage_text" = Some (VStr (stderr done_)))
    /\ (stdout done_ = "" -> stderr done_ = "" ->
        dom r = {[ "program"; "subprogram"; "usage_text"; "exit_code" ]}).
Proof.
  intros Hstat Hthere Hproc.
  pose proof (run_cdp_for_usage_present h program subprogram w Hstat Hthere) as Hrun.
  unfold usage_call in Hrun at 1. rewrite Hproc in Hrun.
  cbn [fst usage_triple_of] in Hrun.
  destruct (get_cdp_usage_fields h program subprogram w _ _ _ _ Hrun)
    as (r & Hget & _ & _ & Htext & Hcode & _ & _ & _ & _ & Hdom).
  exists r, (after_usage h program subprogram w). split; [done|]. split; [done|].
  rewrite Htext. destruct (stdout done_) as [|c out] eqn:Hout; cbn [PyStr.truthy].
  - repeat split; try done.
    + by destruct (PyStr.truthy (stderr done_)).
    + intros _ Herr. apply Hdom; [|done]. by rewrite Herr.
  - repeat split; done.
Qed.

Lemma get_cdp_usage_completed_witness :
  exists (r : gmap string pyval) (w' : world),
    get_cdp_usage (completes 255 "" "USAGE: blur blur") "blur" None studio = (inr r, w')
    /\ r !! "exit_code"
       = Some (VInt (returncode {| returncode := 255; stdout := ""; stderr := "USAGE: blur blur" |}))
    /\ (stdout {| returncode := 255; stdout := ""; stderr := "USAGE: blur blur" |} <> "" ->
        r !! "usage_text"
        = Some (VStr (stdout {| returncode := 255; stdout := ""; stderr := "USAGE: blur blur" |})))
    /\ (stdout {| returncode := 255; stdout := ""; stderr := "USAGE: blur blur" |} = "" ->
        r !! "usage_text"
        = Some (VStr (stderr {| returncode := 255; stdout := ""; stderr := "USAGE: blur blur" |})))
    /\ (stdout {| returncode := 255; stdout := ""; stderr := "USAGE: blur blur" |} = "" ->
        stderr {| returncode := 255; stdout := ""; stderr := "USAGE: blur blur" |} = "" ->
        dom r = {[ "program"; "subprogram"; "usage_text"; "exit_code" ]}).
Proof.
  apply (get_cdp_usage_completed (completes 255 "" "USAGE: blur blur")
           "blur" None studio
           {| returncode := 255; stdout := ""; stderr := "USAGE: blur blur" |} studio_fs).
  - reflexivity.
  - vm_compute. eauto.
  - reflexivity.
Defined.

(** X11.  When the probe of [Path(CDP_PATH) / program] answers that
    nothing is there, [get_cdp_usage] spawns nothing and leaves the host as
    it was; the response has exit code -1 and, as usage text, the not-found
    message with the path as [pathlib] prints it. *)
Theorem get_cdp_usage_not_found (h : host) (program : string)
    (subprogram : option string) (w : world) :
  stat_error h (program_path h program) (fs w) = None ->
  fs w !! program_path h program = None ->
  exists r : gmap string pyval,
    get_cdp_usage h program subprogram w = (inr r, w)
    /\ r !! "exit_code" = Some (VInt (-1))
    /\ r !! "usage_text"
       = Some (VStr ("Program '" ++ program ++ "' not found at "
                     ++ Path.str (Path.div (Path.parse (CDP_PATH h)) program))).
Proof.
  intros Hstat Hnone.
  pose proof (run_cdp_for_usage_absent h program subprogram w Hstat Hnone) as Hrun.
  destruct (get_cdp_usage_fields h program subprogram w w _ _ _ Hrun)
    as (r & Hget & _ & _ & Htext & Hcode & _).
  by exists r.
Qed.

Lemma get_cdp_usage_not_found_witness :
  exists r : gmap string pyval,
    get_cdp_usage idle_host "./blurr" None studio = (inr r, studio)
    /\ r !! "exit_code" = Some (VInt (-1))
    /\ r !! "usage_text"
       = Some (VStr ("Program '" ++ "./blurr" ++ "' not found at "
                     ++ Path.str (Path.div (Path.parse (CDP_PATH idle_host)) "./blurr"))).
Proof.
  apply (get_cdp_usage_not_found idle_host "./blurr" None studio).
  - reflexivity.
  - vm_compute. reflexivity.
Defined.

(** ** Further properties of [run_cdp_command] and [execute_cdp] *)

(** X1.  Whenever [run_cdp_command] returns, it has spawned a process
    exactly when the command is non-empty and a path exists at
    [Path(CDP_PATH) / program], and then exactly one: its arguments are that
    path, as [pathlib] prints it, followed by the rest of the command
    (behind [arch -x86_64] on Apple silicon), it runs in [TEMP_DIR] and
    without a timeout.  One [Executing:] line is printed per spawned
    process. *)
Theorem run_cdp_command_spawns (h : host) (command : list string)
    (w w' : world) (t : Z * string * string) :
  run_cdp_command h command w = (inr t, w') ->
  exists calls : list spawn_call,
    spawned w' = (spawned w ++ calls)%list
    /\ console w'
       = (console w
          ++ List.map (fun call => ("Executing: " ++ PyStr.join " " (argv call))%string)
               calls)%list
    /\ match command with
       | [] => calls = []
       | program :: rest =>
           if bool_decide (is_Some (fs w !! program_path h program))
           then calls = [ {| argv := arch_prefix h (Path.str (program_path h program)) rest;
                             cwd := Some (Path.str (TEMP_DIR h));
                             timeout := None |} ]
           else calls = []
       end.
Proof.
  destruct command as [|program rest].
  - intros [= <- <-]. exists []. by rewrite !app_nil_r.
  - intros Hrun.
    apply run_cdp_command_inv in Hrun
      as [_ [(Hnone & _ & ->) | (Hsome & _ & _ & ->)]].
    + exists []. rewrite !app_nil_r, bool_decide_eq_false_2; [done|].
      rewrite Hnone. by intros [? ?].
    + exists [command_call h program rest].
      by rewrite bool_decide_eq_true_2.
Qed.

Lemma run_cdp_command_spawns_witness :
  exists calls : list spawn_call,
    spawned (after_command (completes 0 "" "") "blur" ["blur"; "in.ana"; "new.ana"; "50"]
               studio)
    = (spawned studio ++ calls)%list
    /\ console (after_command (completes 0 "" "") "blur"
                  ["blur"; "in.ana"; "new.ana"; "50"] studio)
       = (console studio
          ++ List.map (fun call => ("Executing: " ++ PyStr.join " " (argv call))%string)
               calls)%list
    /\ (if bool_decide (is_Some (fs studio !! program_path (completes 0 "" "") "blur"))
        then calls = [ {| argv := arch_prefix (completes 0 "" "")
                                    (Path.str (program_path (completes 0 "" "") "blur"))
                                    ["blur"; "in.ana"; "new.ana"; "50"];
                          cwd := Some (Path.str (TEMP_DIR (completes 0 "" "")));
                          timeout := None |} ]
        else calls = []).
Proof.
  apply (run_cdp_command_spawns (completes 0 "" "")
           ["blur"; "blur"; "in.ana"; "new.ana"; "50"] studio
           (after_command (completes 0 "" "") "blur"
              ["blur"; "in.ana"; "new.ana"; "50"] studio)
           (0, "", "")).
  reflexivity.
Defined.

(** X2.  Let a path exist at [Path(CDP_PATH) / program] and let the
    process spawned for it complete.  In every record [execute_cdp] then
    returns, the fields [exit_code], [stdout] and [stderr] are exactly what
    the process returned, [command] is the array joined by single spaces,
    and the file system afterwards is the one the process left.  A record is
    returned whenever the probe of the program path, the print of the
    [Executing:] line and the probe of the last element are not refused. *)
Theorem execute_cdp_reports_process (h : host) (program : string)
    (rest : list string) (w : world) (done_ : CompletedProcess)
    (files : gmap path inode) :
  is_Some (fs w !! program_path h program) ->
  subprocess_run h (command_call h program rest) (fs w) = (inr done_, files) ->
  (stat_error h (program_path h program) (fs w) = None ->
   print_error h (executing_line h program rest) = None ->
   stat_error h (Path.parse (last_arg (program :: rest))) files = None ->
   exists r : gmap string pyval,
     execute_cdp h (program :: rest) w = (inr r, after_command h program rest w))
  /\ forall (r : gmap string pyval) (w' : world),
       execute_cdp h (program :: rest) w = (inr r, w') ->
       w' = after_command h program rest w
       /\ fs w' = files
       /\ r !! "exit_code" = Some (VInt (returncode done_))
       /\ r !! "stdout" = Some (VStr (stdout done_))
       /\ r !! "stderr" = Some (VStr (stderr done_))
       /\ r !! "command" = Some (VStr (PyStr.join " " (program :: rest))).
Proof.
  intros Hthere Hproc. split.
  - intros Hstat Hprint Hlast.
    pose proof (run_cdp_command_present h program rest w Hstat Hthere Hprint) as Hrun.
    rewrite Hproc in Hrun. cbn [fst triple_of] in Hrun.
    apply (execute_cdp_returns h (program :: rest) w _ _ _ _ ltac:(discriminate) Hrun).
    intros _. unfold after_command. cbn [fs]. by rewrite Hproc.
  - intros r w' Hexec.
    destruct (execute_cdp_ran h (program :: rest) w w' r ltac:(done) Hexec)
      as (exit_code & out & err & w1 & Hrun).
    destruct (execute_cdp_fields h (program :: rest) w w1 w' exit_code out err r
                ltac:(done) Hrun Hexec)
      as (-> & _ & Hcode & Hcommand & Hout & Herr & _).
    apply run_cdp_command_inv in Hrun
      as [_ [(Hnone & _ & _) | (_ & _ & Ht & ->)]].
    { rewrite Hnone in Hthere. by destruct Hthere. }
    rewrite Hproc in Ht. cbn [fst triple_of] in Ht. injection Ht as -> -> ->.
    repeat split; try done.
    unfold after_command. cbn [fs]. by rewrite Hproc.
Qed.

Lemma execute_cdp_reports_process_witness :
  (stat_error (completes 3 "ERROR" "bad mode")
     (program_path (completes 3 "ERROR" "bad mode") "blur") (fs studio) = None ->
   print_error (completes 3 "ERROR" "bad mode")
     (executing_line (completes 3 "ERROR" "bad mode") "blur"
        ["blur"; "in.ana"; "new.ana"; "50"]) = None ->
   stat_error (completes 3 "ERROR" "bad mode")
     (Path.parse (last_arg ("blur" :: ["blur"; "in.ana"; "new.ana"; "50"]))) studio_fs
   = None ->
   exists r : gmap string pyval,
     execute_cdp (completes 3 "ERROR" "bad mode")
       ("blur" :: ["blur"; "in.ana"; "new.ana"; "50"]) studio
     = (inr r, after_command (completes 3 "ERROR" "bad mode") "blur"
                 ["blur"; "in.ana"; "new.ana"; "50"] studio))
  /\ forall (r : gmap string pyval) (w' : world),
       execute_cdp (completes 3 "ERROR" "bad mode")
         ("blur" :: ["blur"; "in.ana"; "new.ana"; "50"]) studio
       = (inr r, w') ->
       w' = after_command (completes 3 "ERROR" "bad mode") "blur"
              ["blur"; "in.ana"; "new.ana"; "50"] studio
       /\ fs w' = studio_fs
       /\ r !! "exit_code"
          = Some (VInt (returncode {| returncode := 3; stdout := "ERROR"; stderr := "bad mode" |}))
       /\ r !! "stdout"
          = Some (VStr (stdout {| returncode := 3; stdout := "ERROR"; stderr := "bad mode" |}))
       /\ r !! "stderr"
          = Some (VStr (stderr {| returncode := 3; stdout := "ERROR"; stderr := "bad mode" |}))
       /\ r !! "command"
          = Some (VStr (PyStr.join " " ("blur" :: ["blur"; "in.ana"; "new.ana"; "50"]))).
Proof.
  apply (execute_cdp_reports_process (completes 3 "ERROR" "bad mode")
           "blur" ["blur"; "in.ana"; "new.ana"; "50"] studio
           {| returncode := 3; stdout := "ERROR"; stderr := "bad mode" |} studio_fs).
  - vm_compute. eauto.
  - reflexivity.
Defined.

(** X3.  Let a path exist at [Path(CDP_PATH) / program] and let
    [subprocess.run] raise for it, whatever the exception.  In every record
    [execute_cdp] then returns the exit code is -1, stdout is empty and
    stderr is ["Execution failed: "] followed by the text of the exception.
    A record is returned whenever the probe of the program path, the print
    of the [Executing:] line and the probe of the last element are not
    refused. *)
Theorem execute_cdp_process_raises (h : host) (program : string)
    (rest : list string) (w : world) (e : pyexn) (files : gmap path inode) :
  is_Some (fs w !! program_path h program) ->
  subprocess_run h (command_call h program rest) (fs w) = (inl e, files) ->
  (stat_error h (program_path h program) (fs w) = None ->
   print_error h (executing_line h program rest) = None ->
   stat_error h (Path.parse (last_arg (program :: rest))) files = None ->
   exists r : gmap string pyval,
     execute_cdp h (program :: rest) w = (inr r, after_command h program rest w))
  /\ forall (r : gmap string pyval) (w' : world),
       execute_cdp h (program :: rest) w = (inr r, w') ->
       r !! "exit_code" = Some (VInt (-1))
       /\ r !! "stdout" = Some (VStr "")
       /\ r !! "stderr"
          = Some (VStr ("Execution failed: "
                        ++ match e with TimeoutExpired s | OtherException s => s end)).
Proof.
  intros Hthere Hproc. split.
  - intros Hstat Hprint Hlast.
    pose proof (run_cdp_command_present h program rest w Hstat Hthere Hprint) as Hrun.
    destruct (triple_of (fst (subprocess_run h (command_call h program rest) (fs w))))
      as [[exit_code out] err].
    apply (execute_cdp_returns h (program :: rest) w _ _ _ _ ltac:(discriminate) Hrun).
    intros _. unfold after_command. cbn [fs]. by rewrite Hproc.
  - intros r w' Hexec.
    destruct (execute_cdp_ran h (program :: rest) w w' r ltac:(done) Hexec)
      as (exit_code & out & err & w1 & Hrun).
    destruct (execute_cdp_fields h (program :: rest) w w1 w' exit_code out err r
                ltac:(done) Hrun Hexec)
      as (-> & _ & Hcode & _ & Hout & Herr & _).
    apply run_cdp_command_inv in Hrun
      as [_ [(Hnone & _ & _) | (_ & _ & Ht & ->)]].
    { rewrite Hnone in Hthere. by destruct Hthere. }
    rewrite Hproc in Ht. cbn [fst triple_of] in Ht.
    destruct e; injection Ht as -> -> ->; done.
Qed.

Lemma execute_cdp_process_raises_witness :
  (stat_error (scripted_host (inl (OtherException "[Errno 8] Exec format error")))
     (program_path (scripted_host (inl (OtherException "[Errno 8] Exec format error")))
        "blur") (fs studio) = None ->
   print_error (scripted_host (inl (OtherException "[Errno 8] Exec format error")))
     (executing_line (scripted_host (inl (OtherException "[Errno 8] Exec format error")))
        "blur" ["blur"; "in.ana"; "new.ana"]) = None ->
   stat_error (scripted_host (inl (OtherException "[Errno 8] Exec format error")))
     (Path.parse (last_arg ("blur" :: ["blur"; "in.ana"; "new.ana"]))) studio_fs = None ->
   exists r : gmap string pyval,
     execute_cdp (scripted_host (inl (OtherException "[Errno 8] Exec format error")))
       ("blur" :: ["blur"; "in.ana"; "new.ana"]) studio
     = (inr r,
        after_command (scripted_host (inl (OtherException "[Errno 8] Exec format error")))
          "blur" ["blur"; "in.ana"; "new.ana"] studio))
  /\ forall (r : gmap string pyval) (w' : world),
       execute_cdp (scripted_host (inl (OtherException "[Errno 8] Exec format error")))
         ("blur" :: ["blur"; "in.ana"; "new.ana"]) studio
       = (inr r, w') ->
       r !! "exit_code" = Some (VInt (-1))
       /\ r !! "stdout" = Some (VStr "")
       /\ r !! "stderr"
          = Some (VStr ("Execution failed: "
                        ++ match OtherException "[Errno 8] Exec format error" with
                           | TimeoutExpired s | OtherException s => s
                           end)).
Proof.
  apply (execute_cdp_process_raises
           (scripted_host (inl (OtherException "[Errno 8] Exec format error")))
           "blur" ["blur"; "in.ana"; "new.ana"] studio
           (OtherException "[Errno 8] Exec format error") studio_fs).
  - vm_compute. eauto.
  - reflexivity.
Defined.

(** X4.  Whenever a record returned by [execute_cdp] reports
    [output_exists], it also reports [output_file] as the last element of
    the command and its status is ["success"], whatever the exit code
    was. *)
Theorem execute_cdp_output_exists_success (h : host) (command : list string)
    (w w' : world) (r : gmap string pyval) :
  execute_cdp h command w = (inr r, w') ->
  is_Some (r !! "output_exists") ->
  r !! "status" = Some (VStr "success")
  /\ r !! "output_file" = Some (VStr (last_arg command)).
Proof.
  destruct command as [|program rest].
  { intros [= <- <-] [v Hv]. discriminate Hv. }
  intros Hexec Hexists.
  destruct (execute_cdp_ran h (program :: rest) w w' r ltac:(done) Hexec)
    as (exit_code & out & err & w1 & Hrun).
  destruct (execute_cdp_fields h (program :: rest) w w1 w' exit_code out err r
                ltac:(done) Hrun Hexec)
    as (-> & Hstatus & _ & _ & _ & _ & _ & Hfile & Hreport & _).
  rewrite Hreport in Hexists.
  destruct (reports_output_file (program :: rest)) eqn:Hnamed;
    [|by destruct Hexists].
  destruct (bool_decide (is_Some (fs w1 !! Path.parse (last_arg (program :: rest)))))
    eqn:Hthere; [|by destruct Hexists].
  split; [|by rewrite Hfile].
  rewrite Hstatus. unfold inferred_success. rewrite Hthere.
  unfold reports_output_file in Hnamed.
  apply andb_true_iff in Hnamed as [[Hlen _]%andb_true_iff _].
  rewrite Hlen. by rewrite orb_true_r.
Qed.

Lemma execute_cdp_output_exists_success_witness :
  execute_cdp (completes 255 "" "pvoc: warning") ["pvoc"; "anal"; "1"; "in.wav"; "out.ana"]
    studio
  = (inr (<["output_exists" := VBool true]>
            (<["output_file" := VStr "out.ana"]>
               {[ "status" := VStr "success";
                  "exit_code" := VInt 255;
                  "command" := VStr "pvoc anal 1 in.wav out.ana";
                  "stdout" := VStr "";
                  "stderr" := VStr "pvoc: warning" ]})),
     after_command (completes 255 "" "pvoc: warning") "pvoc"
       ["anal"; "1"; "in.wav"; "out.ana"] studio)
  /\ (<["output_exists" := VBool true]>
        (<["output_file" := VStr "out.ana"]>
           {[ "status" := VStr "success";
              "exit_code" := VInt 255;
              "command" := VStr "pvoc anal 1 in.wav out.ana";
              "stdout" := VStr "";
              "stderr" := VStr "pvoc: warning" ]}) : gmap string pyval)
      !! "status" = Some (VStr "success")
  /\ (<["output_exists" := VBool true]>
        (<["output_file" := VStr "out.ana"]>
           {[ "status" := VStr "success";
              "exit_code" := VInt 255;
              "command" := VStr "pvoc anal 1 in.wav out.ana";
              "stdout" := VStr "";
              "stderr" := VStr "pvoc: warning" ]}) : gmap string pyval)
      !! "output_file"
      = Some (VStr (last_arg ["pvoc"; "anal"; "1"; "in.wav"; "out.ana"])).
Proof.
  split; [reflexivity|].
  apply (execute_cdp_output_exists_success (completes 255 "" "pvoc: warning")
           ["pvoc"; "anal"; "1"; "in.wav"; "out.ana"] studio
           (after_command (completes 255 "" "pvoc: warning") "pvoc"
              ["anal"; "1"; "in.wav"; "out.ana"] studio)).
  - reflexivity.
  - eexists. reflexivity.
Defined.

(** X5.  A record returned by [execute_cdp] has an [error] key exactly for
    the empty command array: a missing program or a process that could not
    be run is reported through [exit_code] and [stderr] instead. *)
Theorem execute_cdp_error_key (h : host) (command : list string)
    (w w' : world) (r : gmap string pyval) :
  execute_cdp h command w = (inr r, w') ->
  is_Some (r !! "error") <-> command = [].
Proof.
  destruct command as [|program rest].
  { intros [= <- <-]. split; [done|]. intros _. by eexists. }
  intros Hexec.
  destruct (execute_cdp_ran h (program :: rest) w w' r ltac:(done) Hexec)
    as (exit_code & out & err & w1 & Hrun).
  destruct (execute_cdp_fields h (program :: rest) w w1 w' exit_code out err r
                ltac:(done) Hrun Hexec)
    as (-> & _ & _ & _ & _ & _ & Herror & _).
  rewrite Herror. split; [|done]. intros [v Hv]. discriminate Hv.
Qed.

Lemma execute_cdp_error_key_witness :
  execute_cdp idle_host ["blurr"; "in.ana"] studio
  = (inr {[ "status" := VStr "failed";
            "exit_code" := VInt (-1);
            "command" := VStr "blurr in.ana";
            "stdout" := VStr "";
            "stderr" := VStr "Program 'blurr' not found at /opt/cdp/blurr" ]},
     studio)
  /\ (is_Some (({[ "status" := VStr "failed";
                   "exit_code" := VInt (-1);
                   "command" := VStr "blurr in.ana";
                   "stdout" := VStr "";
                   "stderr" := VStr "Program 'blurr' not found at /opt/cdp/blurr" ]}
                 : gmap string pyval) !! "error")
      <-> ["blurr"; "in.ana"] = []).
Proof.
  split; [reflexivity|].
  apply (execute_cdp_error_key idle_host ["blurr"; "in.ana"] studio studio).
  reflexivity.
Defined.

(** X24.  Let the probe of [Path(CDP_PATH) / program] answer that nothing
    is there.  Every record [execute_cdp] then returns leaves the host as it
    was (nothing is spawned or printed) and reports exit code -1, an empty
    stdout and, as stderr, the not-found message with the path as [pathlib]
    prints it (an absolute program name replaces [CDP_PATH]).  The status is
    ["failed"], except that an array of more than two elements whose last
    element exists as a path is reported as ["success"].  A record is
    returned whenever the probe of the last element is answered. *)
Theorem execute_cdp_program_not_found (h : host) (program : string)
    (rest : list string) (w : world) :
  stat_error h (program_path h program) (fs w) = None ->
  fs w !! program_path h program = None ->
  (stat_error h (Path.parse (last_arg (program :: rest))) (fs w) = None ->
   exists r : gmap string pyval, execute_cdp h (program :: rest) w = (inr r, w))
  /\ forall (r : gmap string pyval) (w' : world),
       execute_cdp h (program :: rest) w = (inr r, w') ->
       w' = w
       /\ r !! "exit_code" = Some (VInt (-1))
       /\ r !! "stdout" = Some (VStr "")
       /\ r !! "stderr"
          = Some (VStr ("Program '" ++ program ++ "' not found at "
                        ++ Path.str (program_path h program)))
       /\ r !! "status"
          = Some (VStr (if (2 <? List.length (program :: rest))%nat
                           && bool_decide
                                (is_Some (fs w !! Path.parse (last_arg (program :: rest))))
                        then "success" else "failed")).
Proof.
  intros Hstat Hnone.
  pose proof (run_cdp_command_absent h program rest w Hstat Hnone) as Hrun.
  split.
  - intros Hlast.
    apply (execute_cdp_returns h (program :: rest) w _ _ _ _ ltac:(discriminate) Hrun).
    by intros _.
  - intros r w' Hexec.
    destruct (execute_cdp_fields h (program :: rest) w w w' _ _ _ r
                ltac:(done) Hrun Hexec)
      as (-> & Hstatus & Hcode & _ & Hout & Herr & _).
    by repeat split.
Qed.

Lemma execute_cdp_program_not_found_witness :
  (stat_error idle_host
     (Path.parse (last_arg ("pvok" :: ["anal"; "1"; "in.wav"; "out.ana"]))) (fs studio)
   = None ->
   exists r : gmap string pyval,
     execute_cdp idle_host ("pvok" :: ["anal"; "1"; "in.wav"; "out.ana"]) studio
     = (inr r, studio))
  /\ forall (r : gmap string pyval) (w' : world),
       execute_cdp idle_host ("pvok" :: ["anal"; "1"; "in.wav"; "out.ana"]) studio
       = (inr r, w') ->
       w' = studio
       /\ r !! "exit_code" = Some (VInt (-1))
       /\ r !! "stdout" = Some (VStr "")
       /\ r !! "stderr"
          = Some (VStr ("Program '" ++ "pvok" ++ "' not found at "
                        ++ Path.str (program_path idle_host "pvok")))
       /\ r !! "status"
          = Some (VStr (if (2 <? List.length ("pvok" :: ["anal"; "1"; "in.wav"; "out.ana"]))%nat
                           && bool_decide
                                (is_Some
                                   (fs studio
                                    !! Path.parse
                                         (last_arg ("pvok" :: ["anal"; "1"; "in.wav"; "out.ana"]))))
                        then "success" else "failed")).
Proof.
  apply (execute_cdp_program_not_found idle_host "pvok"
           ["anal"; "1"; "in.wav"; "out.ana"] studio).
  - reflexivity.
  - vm_compute. reflexivity.
Defined.

(** The misspelt program of the last lemma is not run, but the analysis
    file of an earlier run is still there: the call is reported as a
    success, with the not-found message in stderr.  A path that [pathlib]
    normalises is printed in its normal form. *)
Example execute_cdp_not_found_stray_file :
  status_of (execute_cdp idle_host ["pvok"; "anal"; "1"; "in.wav"; "out.ana"] studio)
  = Some (VStr "success")
  /\ fst (run_cdp_command idle_host ["pvok"; "anal"; "1"; "in.wav"; "out.ana"] studio)
     = inr (-1, "", "Program 'pvok' not found at /opt/cdp/pvok")
  /\ fst (run_cdp_command idle_host ["./nope"] studio)
     = inr (-1, "", "Program './nope' not found at /opt/cdp/nope")
  /\ fst (run_cdp_command idle_host ["/bin/nope"] studio)
     = inr (-1, "", "Program '/bin/nope' not found at /bin/nope").
Proof. repeat split; reflexivity. Qed.


(** ** [prepare_spectral] *)

(** X18.  [prepare_spectral] runs nothing in two cases, in which it leaves
    the host as it was.  An input whose name ends in [.ana] is answered with
    status ["info"] and that name as [ana_file], whether or not the file
    exists and without any probe; any other input for which the probe
    answers that nothing is there is answered with status ["failed"] and an
    error naming it. *)
Theorem prepare_spectral_without_run (h : host) (input_file output_file : string)
    (window_size : Z) (w : world) :
  (PyStr.endswith input_file ".ana" = true ->
   prepare_spectral h input_file output_file window_size w
   = (inr {[ "status" := VStr "info";
             "message" := VStr "Input is already a spectral file";
             "ana_file" := VStr input_file ]}, w))
  /\ (PyStr.endswith input_file ".ana" = false ->
      stat_error h (Path.parse input_file) (fs w) = None ->
      fs w !! Path.parse input_file = None ->
      prepare_spectral h input_file output_file window_size w
      = (inr {[ "status" := VStr "failed";
                "error" := VStr ("Input file not found: " ++ input_file) ]}, w)).
Proof.
  unfold prepare_spectral. split.
  - by intros ->.
  - intros -> Hstat Hnone. unfold Py.bind, Path.exists_.
    rewrite Hstat, Hnone, bool_decide_eq_false_2; [done|]. by intros [? ?].
Qed.

Lemma prepare_spectral_without_run_witness :
  prepare_spectral idle_host "old.ana" "new.ana" 2048 studio
  = (inr {[ "status" := VStr "info";
            "message" := VStr "Input is already a spectral file";
            "ana_file" := VStr "old.ana" ]}, studio)
  /\ prepare_spectral idle_host "gone.wav" "new.ana" 2048 studio
     = (inr {[ "status" := VStr "failed";
               "error" := VStr ("Input file not found: " ++ "gone.wav") ]}, studio).
Proof.
  split.
  - apply (proj1 (prepare_spectral_without_run idle_host "old.ana" "new.ana" 2048 studio)).
    reflexivity.
  - apply (proj2 (prepare_spectral_without_run idle_host "gone.wav" "new.ana" 2048 studio)).
    + reflexivity.
    + reflexivity.
    + vm_compute. reflexivity.
Defined.





(** An unreadable window flag: the probe of the path named like the flag
    stands outside any [try] too. *)
Example prepare_spectral_long_window_escapes :
  fst (prepare_spectral (strict_host (inr {| returncode := 2; stdout := ""; stderr := "" |}))
         "in.wav" "new.ana" (10 ^ 260) studio)
  = inl (OtherException
           ("[Errno 36] File name too long: '-c" ++ str_of_int (10 ^ 260) ++ "'")).
Proof. vm_compute. reflexivity. Qed.
